(** * DrawIOActorDetector: the detection pipeline and the report filter

    A shallow embedding of [actor_detector.py] (class [DrawIOActorDetector])
    and of [filter_and_renumber_actors] from [pdf_builder.py], with the
    statistics block that [main.py] derives from it.

    Conventions.
    - Pixel coordinates are numpy [int64] values that stay far away from the
      ends of their range; they are modelled as [Z].
    - A numpy array is a list of rows; basic slicing [a[i:j]] is [slice].
    - OpenCV and EasyOCR are external: they are variables of the section
      that holds the pipeline, may raise, and every call is logged.
    - Python [str] is modelled as [string], one character per code point
      below 256. *)

From Stdlib Require Import ZArith Lia Bool Ascii String DecimalString.
From stdpp Require Import base tactics option list.

Local Open Scope Z_scope.

(** ** Points and distances *)

Module Geometry.

Definition point : Type := Z * Z.

Definition dist_sq (a b : point) : Z :=
  (a.1 - b.1) * (a.1 - b.1) + (a.2 - b.2) * (a.2 - b.2).

(** [math.dist(a, b) > d] for integer points and an integer [d >= 0]: the
    square root of an integer exceeds [d] exactly when the integer
    exceeds [d * d], and the floating-point root keeps that order for
    coordinates of image size. *)
Definition dist_gt (d : Z) (a b : point) : bool := d * d <? dist_sq a b.

(** One turn of the loops
    [if all(math.dist(a, b) > d for b in acc): acc.append(a)]. *)
Definition append_if_far (d : Z) (acc : list point) (a : point) : list point :=
  if forallb (dist_gt d a) acc then acc ++ [a] else acc.

(** [for a in l: ...] with the accumulator [acc]. *)
Definition keep_far (d : Z) (acc l : list point) : list point :=
  fold_left (append_if_far d) l acc.

(** Every entry is farther than [d] from every entry before it. *)
Definition separated (d : Z) (l : list point) : Prop :=
  ∀ (i j : nat) (a b : point),
    (i < j)%nat → l !! i = Some b → l !! j = Some a → dist_gt d a b = true.

End Geometry.

(** ** numpy arrays and basic slicing *)

Module Numpy.

(** The bound [i] of [a[i:j]] on an axis of length [n]: a negative bound
    counts from the end, and every bound is clipped to [0 .. n]. *)
Definition slice_index (n i : Z) : Z :=
  if i <? 0 then Z.max 0 (i + n) else Z.min i n.

(** [l[i:j]] *)
Definition slice {A} (l : list A) (i j : Z) : list A :=
  let n := Z.of_nat (length l) in
  let lo := slice_index n i in
  let hi := slice_index n j in
  take (Z.to_nat (hi - lo)) (drop (Z.to_nat lo) l).

(** A two-dimensional array, row after row.  The element type is a grey
    level for masks and a whole BGR pixel for the colour image. *)
Abbreviation array2 A := (list (list A)).

Definition nrows {A} (a : array2 A) : nat := length a.

Definition ncols {A} (a : array2 A) : nat :=
  match a with [] => 0%nat | r :: _ => length r end.

(** [a.size] up to the constant number of channels: only its comparison
    with zero is used. *)
Definition size {A} (a : array2 A) : nat := (nrows a * ncols a)%nat.

(** All rows have [w] entries. *)
Definition rect {A} (w : nat) (a : array2 A) : Prop := Forall (λ r, length r = w) a.

(** [a[y1:y2, x1:x2]] *)
Definition crop {A} (a : array2 A) (y1 y2 x1 x2 : Z) : array2 A :=
  (λ r, slice r x1 x2) <$> slice a y1 y2.

(** [a[y][x]] for in-range indices, as a partial function. *)
Definition at2 {A} (a : array2 A) (y x : nat) : option A :=
  match a !! y with Some r => r !! x | None => None end.

End Numpy.

(** ** Python strings *)

Module PyStr.

Local Open Scope string_scope.

(** [str.isspace] on one character, for code points below 256. *)
Definition isspace (c : ascii) : bool :=
  let n := nat_of_ascii c in
  ((9 <=? n) && (n <=? 13) || (28 <=? n) && (n <=? 32) || (n =? 133) || (n =? 160))%nat.

Fixpoint lstrip (s : string) : string :=
  match s with
  | EmptyString => EmptyString
  | String c s' => if isspace c then lstrip s' else s
  end.

Definition reverse (s : string) : string :=
  string_of_list_ascii (rev (list_ascii_of_string s)).

Definition rstrip (s : string) : string := reverse (lstrip (reverse s)).

(** [s.strip()] *)
Definition strip (s : string) : string := rstrip (lstrip s).

(** Truth value of a [str]: non-empty. *)
Definition truthy (s : string) : bool :=
  match s with EmptyString => false | String _ _ => true end.

(** [sep.join(l)] *)
Definition join (sep : string) (l : list string) : string := String.concat sep l.

End PyStr.

(** ** External calls: results, exceptions and the call log *)

Module Effects.

(** What a call into OpenCV or EasyOCR does: it returns or it raises. *)
Inductive outcome (A : Type) : Type :=
  | Ret (a : A)
  | Raise (e : string).
Arguments Ret {A} a.
Arguments Raise {A} e.

(** A computation: its outcome and the log of the external calls it made,
    oldest first.  [E] is the type of log entries. *)
Definition M (E A : Type) : Type := outcome A * list E.

Definition ret {E A} (a : A) : M E A := (Ret a, []).

Definition bind {E A B} (m : M E A) (k : A → M E B) : M E B :=
  match m with
  | (Ret a, log) => let '(r, log') := k a in (r, log ++ log')
  | (Raise e, log) => (Raise e, log)
  end.

Global Arguments bind : simpl never.

(** One logged external call. *)
Definition call {E A} (ev : E) (r : outcome A) : M E A := (r, [ev]).

(** An external function that returns on every input. *)
Definition never_raises {A B} (f : A → outcome B) : Prop := ∀ a, ∃ b, f a = Ret b.

End Effects.

Declare Scope detector_scope.
Notation "'let*' x ':=' m 'in' k" := (Effects.bind m (λ x, k))
  (at level 10, x pattern, m at level 100, k at level 200) : detector_scope.

(** ** The detector *)

Module Detector.

Import Geometry Numpy Effects.
Local Open Scope detector_scope.

(** [(x1, y1, x2, y2)] *)
Definition box : Type := Z * Z * Z * Z.

(** [(cx, cy, r)] *)
Definition circle : Type := Z * Z * Z.

(** [(actor_id, text)] *)
Definition record : Type := Z * string.

(** An entry of [debug_info]:
    [(actor_pos, roi_box, circle, text_results[-1], text_roi)]. *)
Definition debug_entry : Type := point * box * option circle * record * option box.

(** [len(l)] *)
Definition len {A} (l : list A) : Z := Z.of_nat (length l).

(** [enumerate(l, start)] *)
Fixpoint enumerate {A} (start : Z) (l : list A) : list (Z * A) :=
  match l with
  | [] => []
  | a :: l' => (start, a) :: enumerate (start + 1) l'
  end.

(** Conversion of an integral value to [np.uint16]. *)
Definition uint16 (v : Z) : Z := v mod 65536.

(** [min(l, key=key)] on a non-empty list [best :: l]: the first entry
    with the least key. *)
Fixpoint min_from {A} (key : A → Z) (best : A) (l : list A) : A :=
  match l with
  | [] => best
  | c :: l' => min_from key (if key c <? key best then c else best) l'
  end.

(** [np.uint16(np.around(circles[0]))] and the loop that moves the
    circles of a region with corner [(x1, y1)] to image coordinates. *)
Definition circles_abs (x1 y1 : Z) (circles : list circle) : list circle :=
  let circles := (λ '(cx, cy, r), (uint16 cx, uint16 cy, uint16 r)) <$> circles in
  (λ '(cx, cy, r), (x1 + cx, y1 + cy, r)) <$> circles.

(** [cy < y and abs(cx - x) < 25] *)
Definition head_above (x y : Z) (c : circle) : bool :=
  let '(cx, cy, r) := c in (cy <? y) && (Z.abs (cx - x) <? 25).

(** [key=lambda c: abs(c[0]-x)] *)
Definition x_offset (x : Z) (c : circle) : Z := Z.abs (c.1.1 - x).

(** [center = (pt[0]+size//2, pt[1]+size//2)] *)
Definition center (size : Z) (pt : Geometry.point) : Geometry.point :=
  (pt.1 + size `div` 2, pt.2 + size `div` 2).

(** The glyph centres of all accepted responses, size after size;
    [locs] holds the locations found for each size. *)
Definition all_centers (sizes : list Z) (locs : list (list Geometry.point))
    : list Geometry.point :=
  concat (zip_with (λ size l, center size <$> l) sizes locs).

(** The loop under [# Remove near duplicates]. *)
Definition remove_near_duplicates (verified : list point) : list point :=
  Geometry.keep_far 25 [] verified.

(** ** Binarization: the arithmetic of [preprocess] *)

Definition total (a : array2 Z) : Z := foldr Z.add 0 (concat a).

Definition count (a : array2 Z) : Z := Z.of_nat (length (concat a)).

(** [np.mean(a) > t]: the sum of the pixels is an exact integer, and the
    quotient exceeds [t] exactly when the sum exceeds [t] times the number
    of pixels (an empty array has mean nan, and the test is false). *)
Definition mean_gt (a : array2 Z) (t : Z) : bool := t * count a <? total a.

(** [255 - gray] *)
Definition invert (a : array2 Z) : array2 Z := (λ r : list Z, (λ v, 255 - v) <$> r) <$> a.

(** [cv2.threshold(a, thresh, maxval, cv2.THRESH_BINARY)[1]] *)
Definition threshold_binary (thresh maxval : Z) (a : array2 Z) : array2 Z :=
  (λ r : list Z, (λ v, if thresh <? v then maxval else 0) <$> r) <$> a.

(** The body of [preprocess] after the grey conversion. *)
Definition binarize (gray : array2 Z) : array2 Z :=
  let gray := if mean_gt gray 127 then invert gray else gray in
  threshold_binary 50 255 gray.

(** A mask in the sense of the data model: every pixel is 0 or 255. *)
Definition binary_valued (a : array2 Z) : Prop :=
  Forall (Forall (λ v, v = 0 ∨ v = 255)) a.

Definition template_sizes : list Z := [40; 50; 60; 70; 80].

Section Pipeline.

(** A pixel of the colour image. *)
Context {pixel : Type}.

(** The external calls, in the order of the log. *)
Inductive event : Type :=
  | EvCvtColor
  | EvMatchTemplate (size : Z)
  | EvGaussianBlur (roi : array2 Z)
  | EvHoughCircles (roi : array2 Z)
  | EvReadtext (roi : array2 pixel)
  | EvDraw (actors : list point) (debug_info : list debug_entry).

(** [self.image], after the alpha flattening of [__init__]. *)
Variable image : array2 pixel.

(** [cv2.cvtColor(_, cv2.COLOR_BGR2GRAY)] *)
Variable cvtColor_gray : array2 pixel → outcome (array2 Z).

(** For a template size: the template drawn at that size,
    [cv2.matchTemplate(binary, template, cv2.TM_CCOEFF_NORMED)],
    [np.where(res >= 0.41)] and the zip over the reversed [locs]: the
    [(x, y)] corners of the accepted responses in raster order. *)
Variable match_locations : array2 Z → Z → outcome (list point).

(** [cv2.GaussianBlur(roi, (5,5), 0)] *)
Variable GaussianBlur : array2 Z → outcome (array2 Z).

(** [cv2.HoughCircles(...)] with the parameters of the source, followed
    by [np.around(circles[0])]: [None], or the rounded [(cx, cy, r)]
    rows, relative to the region. *)
Variable HoughCircles : array2 Z → outcome (option (list circle)).

(** [easyocr.Reader(['en', 'es'], gpu=False).readtext(roi)]: the spans
    as (bounding region, text); the confidence is never read. *)
Variable readtext : array2 pixel → outcome (list (box * string)).

(** The OpenCV drawing and [cv2.imwrite] of [draw_results]. *)
Variable render : array2 Z → list point → list debug_entry → outcome unit.

Abbreviation M := (Effects.M event).

(** [self.height, self.width = self.image.shape[:2]] *)
Definition height : Z := Z.of_nat (nrows image).
Definition width : Z := Z.of_nat (ncols image).

Definition preprocess : M (array2 Z) :=
  let* gray := call EvCvtColor (cvtColor_gray image) in
  ret (binarize gray).

(** The values are those of numpy [int64] scalars ([x] and [y] come from
    [np.where]); [x1 + cx] and [cx - x] are then exact.  This is the
    method with [self.debug] off; [HeadDebug.verify_head_circle_debug]
    has the flag and the calls of the debug branches. *)
Definition verify_head_circle (binary : array2 Z) (actor_pos : point)
    (search_height search_width : Z) : M (bool * option circle * box) :=
  let '(x, y) := actor_pos in
  let y1 := Z.max 0 (y - search_height) in
  let y2 := y in
  let x1 := Z.max 0 (x - search_width `div` 2) in
  let x2 := Z.min width (x + search_width `div` 2) in
  let roi := crop binary y1 y2 x1 x2 in
  if (size roi =? 0)%nat then ret (false, None, (x1, y1, x2, y2)) else
  let* roi_blur := call (EvGaussianBlur roi) (GaussianBlur roi) in
  let* circles := call (EvHoughCircles roi_blur) (HoughCircles roi_blur) in
  match circles with
  | None => ret (false, None, (x1, y1, x2, y2))
  | Some circles =>
    let circles_abs := circles_abs x1 y1 circles in
    let circles_abs := List.filter (head_above x y) circles_abs in
    match circles_abs with
    | [] => ret (false, None, (x1, y1, x2, y2))
    | c :: rest =>
      let best_circle := min_from (x_offset x) c rest in
      ret (true, Some best_circle, (x1, y1, x2, y2))
    end
  end.

Definition extract_text_below (actor_pos : point) : M (string * option box) :=
  let '(x, y) := actor_pos in
  let roi_h := 80 in
  let roi_w := 160 in
  let x1 := Z.max 0 (x - roi_w `div` 2) in
  let x2 := Z.min width (x + roi_w `div` 2) in
  let y1 := y + 10 in
  let y2 := Z.min height (y + roi_h) in
  let roi := crop image y1 y2 x1 x2 in
  if (size roi =? 0)%nat then ret (EmptyString, None) else
  let* result := call (EvReadtext roi) (readtext roi) in
  let text := PyStr.join " " (snd <$> result) in
  ret (PyStr.strip text, Some (x1, y1, x2, y2)).

(** [for size in template_sizes: ...] with the list [actors] so far. *)
Fixpoint match_sizes (binary : array2 Z) (sizes : list Z) (actors : list point)
    : M (list point) :=
  match sizes with
  | [] => ret actors
  | size :: sizes' =>
    let* locs := call (EvMatchTemplate size) (match_locations binary size) in
    match_sizes binary sizes' (keep_far 15 actors (center size <$> locs))
  end.

Definition find_actors_by_template (binary : array2 Z) : M (list point) :=
  match_sizes binary template_sizes [].

(** [for idx, actor_pos in enumerate(actors): ...], from index [idx] on,
    with the three lists built so far. *)
Fixpoint verify_loop (binary : array2 Z) (idx : Z) (actors : list point)
    (verified : list point) (debug_info : list debug_entry)
    (text_results : list record)
    : M (list point * list debug_entry * list record) :=
  match actors with
  | [] => ret (verified, debug_info, text_results)
  | actor_pos :: actors' =>
    let* (ok, circle, roi_box) := verify_head_circle binary actor_pos 35 50 in
    if (ok : bool) then
      let* (text, text_roi) := extract_text_below actor_pos in
      verify_loop binary (idx + 1) actors'
        (verified ++ [actor_pos])
        (debug_info ++ [(actor_pos, roi_box, circle, (idx + 1, text), text_roi)])
        (text_results ++ [(idx + 1, text)])
    else
      verify_loop binary (idx + 1) actors'
        verified
        (debug_info ++ [(actor_pos, roi_box, circle, (idx + 1, EmptyString), None)])
        (text_results ++ [(idx + 1, EmptyString)])
  end.

Definition draw_results (binary : array2 Z) (actors : list point)
    (debug_info : list debug_entry) : M unit :=
  call (EvDraw actors debug_info) (render binary actors debug_info).

(** [verify_head_circle], as called by [detect_actors], returns with
    its first component true. *)
Definition head_confirmed (binary : array2 Z) (actor_pos : point) : bool :=
  match verify_head_circle binary actor_pos 35 50 with
  | (Ret (true, _, _), _) => true
  | _ => false
  end.

(** The text that [extract_text_below] returns, when it returns. *)
Definition ocr_caption (actor_pos : point) : string :=
  match extract_text_below actor_pos with
  | (Ret (text, _), _) => text
  | _ => EmptyString
  end.

(** The entry that one turn of the loop appends to [text_results]. *)
Definition raw_record (binary : array2 Z) (entry : Z * point) : record :=
  let '(actor_id, actor_pos) := entry in
  (actor_id, if head_confirmed binary actor_pos then ocr_caption actor_pos else EmptyString).

(** The regions handed to text recognition, in the order of the log. *)
Definition readtext_calls (log : list event) : list (array2 pixel) :=
  omap (λ ev, match ev with EvReadtext roi => Some roi | _ => None end) log.

(** The record list as section 4.6 of the specification words it: the
    retained candidates, numbered from 1 in retention order, each with
    its caption. *)
Definition records_of_retained (final_actors : list point) : list record :=
  (λ '(actor_id, actor_pos), (actor_id, ocr_caption actor_pos)) <$> enumerate 1 final_actors.

(** The caption rectangle as section 4.5 of the specification words it:
    it starts 10 px below [y], is 80 px high and 160 px wide centred on
    [x], and is clipped to the image. *)
Definition caption_rect_spec (actor_pos : point) : array2 pixel :=
  let '(x, y) := actor_pos in
  crop image (y + 10) (Z.min height (y + 10 + 80)) (Z.max 0 (x - 80)) (Z.min width (x + 80)).

(** Returns [(len(final_actors), final_actors, text_results)]. *)
Definition detect_actors : M (Z * list point * list record) :=
  let* binary := preprocess in
  let* actors := find_actors_by_template binary in
  let* (verified, debug_info, text_results) := verify_loop binary 0 actors [] [] [] in
  let final_actors := remove_near_duplicates verified in
  let* _ := draw_results binary final_actors debug_info in
  ret (len final_actors, final_actors, text_results).

End Pipeline.

End Detector.

(** ** The report filter ([pdf_builder.py]) and its use in [main.py] *)

Module Report.

Import Detector.

(** The dictionary [stats] of [filter_and_renumber_actors], by key. *)
Record stats : Type := {
  total_detected : Z;
  with_names : Z;
  without_names : Z;
  filtered_list : list record
}.

Definition filter_and_renumber_actors (actors_list : list record) : list record * stats :=
  let filtered :=
    (λ '(actor_id, name), (actor_id, PyStr.strip name)) <$>
      List.filter (λ '(actor_id, name), PyStr.truthy name && PyStr.truthy (PyStr.strip name))
        actors_list in
  let renumbered := (λ '(new_id, (old_id, name)), (new_id, name)) <$> enumerate 1 filtered in
  let stats := {|
    total_detected := len actors_list;
    with_names := len filtered;
    without_names := len actors_list - len filtered;
    filtered_list := renumbered
  |} in
  (renumbered, stats).

(** The ["statistics"] object of the JSON answer in [main.py]. *)
Record statistics : Type := {
  stat_total_detected : Z;
  stat_with_names : Z;
  stat_without_names : Z;
  in_final_report : Z
}.

(** [main.py], after [detect_actors] returned [actors_list]: the filtered
    actors and the statistics of the answer. *)
Definition report_statistics (actors_list : list record) : list record * statistics :=
  let '(filtered_actors, stats) := filter_and_renumber_actors actors_list in
  (filtered_actors,
   {| stat_total_detected := total_detected stats;
      stat_with_names := with_names stats;
      stat_without_names := without_names stats;
      in_final_report := len filtered_actors |}).

End Report.

(** ** The debug entries of [detect_actors] *)

Module Overlay.

Import Geometry Numpy Effects Detector.

Section Entries.

Context {pixel : Type}.
Variable image : array2 pixel.
Variable GaussianBlur : array2 Z → outcome (array2 Z).
Variable HoughCircles : array2 Z → outcome (option (list circle)).
Variable readtext : array2 pixel → outcome (list (box * string)).

(** The tuple that one turn of the loop of [detect_actors] appends to
    [debug_info], for the candidate [actor_pos] numbered [actor_id], when
    the turn completes. *)
Definition debug_entry_of (binary : array2 Z) (entry : Z * point) : debug_entry :=
  let '(actor_id, actor_pos) := entry in
  match verify_head_circle image GaussianBlur HoughCircles binary actor_pos 35 50 with
  | (Ret (true, circle, roi_box), _) =>
    match extract_text_below image readtext actor_pos with
    | (Ret (text, text_roi), _) => (actor_pos, roi_box, circle, (actor_id, text), text_roi)
    | _ => (actor_pos, roi_box, circle, (actor_id, EmptyString), None)
    end
  | (Ret (false, circle, roi_box), _) =>
    (actor_pos, roi_box, circle, (actor_id, EmptyString), None)
  | _ => (actor_pos, (0, 0, 0, 0), None, (actor_id, EmptyString), None)
  end.

End Entries.

End Overlay.

(** ** The JSON answer of [main.py] *)

Module Api.

(** The test [name and name.strip()] of the report filter, on the name
    alone. *)
Definition named (name : string) : bool :=
  PyStr.truthy name && PyStr.truthy (PyStr.strip name).

Import Geometry Detector.

(** [{"actor_id": ..., "name": ...}] *)
Record actor_json : Type := { actor_id : Z; name : string }.

(** [{"original_id": ..., "name": ...}] *)
Record original_json : Type := { original_id : Z; original_name : string }.

(** [{"x": float(x), "y": float(y)}]; the floats have the integral
    values of the coordinates. *)
Record position_json : Type := { pos_x : Z; pos_y : Z }.

(** [response_data], by key; the last two keys are present only with
    [include_empty]. *)
Record response_data : Type := {
  status : string;
  detection_time : string;
  statistics : Report.statistics;
  actors : list actor_json;
  positions : list position_json;
  all_detected_actors : option (list original_json);
  omitted_actors : option (list Z)
}.

(** [a or b] on strings *)
Definition str_or (a b : string) : string := if PyStr.truthy a then a else b.

(** The branch [format.lower() == "json"] of the endpoint [detect_actors],
    from the triple that the detector returned. *)
Definition json_response (detection_time : string) (include_empty : bool)
    (actor_positions : list point) (actors_list : list record) : response_data :=
  let '(filtered_actors, stats) := Report.filter_and_renumber_actors actors_list in
  {| status := "success";
     detection_time := detection_time;
     statistics :=
       {| Report.stat_total_detected := Report.total_detected stats;
          Report.stat_with_names := Report.with_names stats;
          Report.stat_without_names := Report.without_names stats;
          Report.in_final_report := len filtered_actors |};
     actors :=
       (λ '(actor_id, actor_name), {| actor_id := actor_id; name := actor_name |})
         <$> filtered_actors;
     positions :=
       match actor_positions with
       | [] => []
       | _ => (λ '(x, y), {| pos_x := x; pos_y := y |}) <$> actor_positions
       end;
     all_detected_actors :=
       if include_empty
       then Some ((λ '(actor_id, actor_name),
                     {| original_id := actor_id;
                        original_name := str_or actor_name "Sin nombre" |})
                    <$> actors_list)
       else None;
     omitted_actors :=
       if include_empty
       then Some (fst <$> List.filter
                            (λ '(actor_id, name),
                               negb (PyStr.truthy name)
                               || negb (PyStr.truthy (PyStr.strip name)))
                            actors_list)
       else None |}.

End Api.

(** ** The endpoint [POST /detect-actors/] of [main.py] *)

Module Endpoint.

Import Geometry Effects Detector.
Local Open Scope detector_scope.

(** [str.lower] on one character, for code points below 256: the letters
    A-Z, and the capital letters of the Latin-1 block (192-222 without the
    multiplication sign 215), move up by 32. *)
Definition lower_char (c : ascii) : ascii :=
  let n := nat_of_ascii c in
  if ((65 <=? n) && (n <=? 90) || (192 <=? n) && (n <=? 222) && negb (n =? 215))%nat
  then ascii_of_nat (n + 32)
  else c.

(** [s.lower()] *)
Fixpoint lower (s : string) : string :=
  match s with
  | EmptyString => EmptyString
  | String c s' => String (lower_char c) (lower s')
  end.

Definition allowed_extensions : list string :=
  [".png"; ".jpg"; ".jpeg"; ".bmp"; ".tiff"; ".webp"]%string.

(** [file_extension not in allowed_extensions], negated *)
Definition allowed (file_extension : string) : bool :=
  existsb (String.eqb file_extension) allowed_extensions.

(** A raised [HTTPException(status_code=..., detail=...)]. *)
Inductive http_exception : Type :=
  | HTTPException (status_code : Z) (detail : string).

Section Handler.

(** The PDF buffers of [pdf_builder]. *)
Context {buffer : Type}.

(** What the handler returns. *)
Inductive reply : Type :=
  | JSONResponse (content : Api.response_data)
  | StreamingResponse (pdf : buffer) (pdf_filename : string).

(** The actions on the outside world, in the order of the log. *)
Inductive action : Type :=
  | ActTempFile (suffix : string)
  | ActCopy (path : string)
  | ActClose (path : string)
  | ActDetect (path : string) (debug : bool)
  | ActCreatePdf (actors_list : list record)
  | ActCreateCompactPdf (actors_list : list record)
  | ActExists (path : string)
  | ActUnlink (path : string).

(** [tempfile.NamedTemporaryFile(delete=False, suffix=..., dir=TEMP_DIR)]:
    the name of the file it created. *)
Variable temp_file : string → outcome string.

(** [shutil.copyfileobj(file.file, temp_file)], and the close at the end
    of the [with] block. *)
Variable copyfileobj : string → outcome unit.
Variable close : string → outcome unit.

(** [DrawIOActorDetector(path, debug=debug).detect_actors()] *)
Variable detector : string → bool → outcome (Z * list point * list record).

(** [create_actors_pdf(actors_list, detection_date, image_path)] and
    [create_compact_actors_pdf(actors_list)] *)
Variable create_actors_pdf : list record → string → option string → outcome buffer.
Variable create_compact_actors_pdf : list record → outcome buffer.

(** [os.path.exists] *)
Variable exists_path : string → bool.

(** [datetime.now().isoformat()] and [datetime.now().strftime(...)] at
    the places where the handler reads the clock. *)
Variable detection_time : string.
Variable stamp : string.

(** [os.path.splitext(file.filename)]: the name without its extension,
    and the extension. *)
Variable original_name : string.
Variable extension : string.

(** [', '.join(allowed_extensions)], in the iteration order of the set. *)
Variable allowed_joined : string.

(** [str(e)] for an [HTTPException]. *)
Variable http_str : Z → string → string.

Abbreviation M := (Effects.M action).

Definition invalid_format : string :=
  "Invalid format. Choose 'pdf', 'json', or 'compact-pdf'".

(** The [try] block from the detector call on, with the recorded
    [temp_file_path].  An exception is carried as its [str(e)]: the
    [except] clause reads nothing else of it. *)
Definition process (temp_file_path : string) (debug : bool) (format : string)
    (include_empty : bool) : M reply :=
  let* (actor_count, actor_positions, actors_list) :=
    call (ActDetect temp_file_path debug) (detector temp_file_path debug) in
  let processed_image_path :=
    if debug then Some "actors_debug_output.png"%string else None in
  if String.eqb (lower format) "json" then
    ret (JSONResponse
           (Api.json_response detection_time include_empty actor_positions actors_list))
  else if String.eqb (lower format) "pdf" then
    let* pdf_buffer :=
      call (ActCreatePdf actors_list)
        (create_actors_pdf actors_list detection_time processed_image_path) in
    ret (StreamingResponse pdf_buffer
           (String.concat "" ["actores_"; original_name; "_"; stamp; ".pdf"]%string))
  else if String.eqb (lower format) "compact-pdf" then
    let* pdf_buffer :=
      call (ActCreateCompactPdf actors_list) (create_compact_actors_pdf actors_list) in
    ret (StreamingResponse pdf_buffer
           (String.concat "" ["actores_compacto_"; stamp; ".pdf"]%string))
  else (Raise (http_str 400 invalid_format), []).

(** The whole [try] block: the value of [temp_file_path] when the block
    is left, and its outcome.  The path is recorded after the copy, inside
    the [with] block, whose exit closes the file on every path: a failing
    close leaves the path recorded, and after a failing copy the exception
    of the close, if it raises too, replaces that of the copy. *)
Definition try_block (file_extension : string) (debug : bool) (format : string)
    (include_empty : bool) : option string * M reply :=
  match temp_file file_extension with
  | Raise e => (None, (Raise e, [ActTempFile file_extension]))
  | Ret path =>
    match copyfileobj path with
    | Raise e =>
      (None,
       (match close path with
        | Raise e' => Raise e'
        | Ret _ => Raise e
        end,
        [ActTempFile file_extension; ActCopy path; ActClose path]))
    | Ret _ =>
      (Some path,
       let* _ := ((Ret tt, [ActTempFile file_extension; ActCopy path]) : M unit) in
       let* _ := call (ActClose path) (close path) in
       process path debug format include_empty)
    end
  end.

(** The [finally] clause: its actions.  Whether [os.unlink] returns or
    raises makes no difference: its exception is caught and only printed. *)
Definition finally (temp_file_path : option string) : list action :=
  match temp_file_path with
  | None => []
  | Some path =>
    if PyStr.truthy path
    then if exists_path path then [ActExists path; ActUnlink path] else [ActExists path]
    else []
  end.

(** The handler: the exception it raises or the response it returns, and
    its actions. *)
Definition detect_actors (debug : bool) (format : string) (include_empty : bool)
    : (http_exception + reply) * list action :=
  let file_extension := lower extension in
  if negb (allowed file_extension) then
    (inl (HTTPException 400
            (String.append "File type not allowed. Allowed types: " allowed_joined)), [])
  else
    let '(temp_file_path, (r, log)) := try_block file_extension debug format include_empty in
    let result :=
      match r with
      | Ret response => inr response
      | Raise e => inl (HTTPException 500 (String.append "Error processing image: " e))
      end in
    (result, log ++ finally temp_file_path).

End Handler.

End Endpoint.

(** ** The synthetic templates of [find_actors_by_template] *)

Module Template.

Import Geometry.

(** The drawing calls on the [size] x [size] template, with their
    arguments: [cv2.circle(template, center, radius, color, thickness)]
    and [cv2.line(template, pt1, pt2, color, thickness)]. *)
Inductive stroke : Type :=
  | Circle (center : point) (radius color thickness : Z)
  | Line (pt1 pt2 : point) (color thickness : Z).

(** The head, the body and the arms, in the order in which they are
    drawn. *)
Definition template_strokes (size : Z) : list stroke :=
  let cx := size `div` 2 in
  let head_r := size `div` 6 in
  let arm_len := size `div` 3 in
  [Circle (cx, head_r) head_r 255 1;
   Line (cx, head_r * 2) (cx, (size * 2) `div` 3) 255 1;
   Line (cx - arm_len, head_r * 2 + size `div` 10)
        (cx + arm_len, head_r * 2 + size `div` 10) 255 1].

(** The corners of the bounding box of the ideal stroke. *)
Definition extent (s : stroke) : list point :=
  match s with
  | Circle (cx, cy) r _ _ => [(cx - r, cy - r); (cx + r, cy + r)]
  | Line pt1 pt2 _ _ => [pt1; pt2]
  end.

End Template.

(** ** Head verification with its debug branches *)

Module HeadDebug.

Import Geometry Numpy Effects Detector.
Local Open Scope detector_scope.

(** [str(actor_id)], as it is formatted into the names of the debug files:
    the argument is [None] or an integer. *)
Definition str_actor_id (actor_id : option Z) : string :=
  match actor_id with
  | None => "None"
  | Some n => NilZero.string_of_int (Z.to_int n)
  end.

(** [f"debug_roi_actor{actor_id}.png"] and
    [f"debug_roi_actor{actor_id}_circles.png"] *)
Definition roi_file (actor_id : option Z) : string :=
  String.concat "" ["debug_roi_actor"; str_actor_id actor_id; ".png"]%string.

Definition circles_file (actor_id : option Z) : string :=
  String.concat "" ["debug_roi_actor"; str_actor_id actor_id; "_circles.png"]%string.

(** [np.uint16(np.around(circles[0]))] *)
Definition circles_uint16 (circles : list circle) : list circle :=
  (λ '(cx, cy, r), (uint16 cx, uint16 cy, uint16 r)) <$> circles.

Section Debug.

(** A pixel of the colour image, and the colour copy of the region that
    the debug branch draws on. *)
Context {pixel canvas : Type}.

(** All external calls of [verify_head_circle], in the order of the log. *)
Inductive head_call : Type :=
  | CallImwriteRoi (filename : string) (roi : array2 Z)
  | CallGaussianBlur (roi : array2 Z)
  | CallHoughCircles (roi : array2 Z)
  | CallCvtColor (roi : array2 Z)
  | CallCircle (center : Z * Z) (radius : Z)
  | CallImwriteCircles (filename : string) (out : canvas).

Variable image : array2 pixel.
Variable GaussianBlur : array2 Z → outcome (array2 Z).
Variable HoughCircles : array2 Z → outcome (option (list circle)).

(** [cv2.imwrite(filename, roi)] *)
Variable imwrite_roi : string → array2 Z → outcome bool.

(** [cv2.cvtColor(roi, cv2.COLOR_GRAY2BGR)] *)
Variable cvtColor_bgr : array2 Z → outcome canvas.

(** [cv2.circle(out, (cx, cy), r, (0,255,0), 2)]: the canvas after the
    call. *)
Variable circle_on : canvas → Z * Z → Z → outcome canvas.

(** [cv2.imwrite(filename, out)] *)
Variable imwrite_out : string → canvas → outcome bool.

Abbreviation M := (Effects.M head_call).

(** [for (cx, cy, r) in circles: cv2.circle(out, (cx, cy), r, ...)] *)
Fixpoint draw_circles (out : canvas) (circles : list circle) : M canvas :=
  match circles with
  | [] => ret out
  | (cx, cy, r) :: circles' =>
    let* out := call (CallCircle (cx, cy) r) (circle_on out (cx, cy) r) in
    draw_circles out circles'
  end.

(** [verify_head_circle] with the flag [self.debug]; the prints are left
    out. *)
Definition verify_head_circle_debug (debug : bool) (binary : array2 Z) (actor_pos : point)
    (actor_id : option Z) (search_height search_width : Z)
    : M (bool * option circle * box) :=
  let '(x, y) := actor_pos in
  let y1 := Z.max 0 (y - search_height) in
  let y2 := y in
  let x1 := Z.max 0 (x - search_width `div` 2) in
  let x2 := Z.min (width image) (x + search_width `div` 2) in
  let roi := crop binary y1 y2 x1 x2 in
  if (size roi =? 0)%nat then ret (false, None, (x1, y1, x2, y2)) else
  let* _ :=
    if debug
    then let* _ := call (CallImwriteRoi (roi_file actor_id) roi)
                     (imwrite_roi (roi_file actor_id) roi) in
         ret tt
    else ret tt in
  let* roi_blur := call (CallGaussianBlur roi) (GaussianBlur roi) in
  let* circles := call (CallHoughCircles roi_blur) (HoughCircles roi_blur) in
  match circles with
  | None => ret (false, None, (x1, y1, x2, y2))
  | Some circles =>
    let circles16 := circles_uint16 circles in
    let circles_abs := List.filter (head_above x y) (circles_abs x1 y1 circles) in
    let* _ :=
      if debug
      then let* out := call (CallCvtColor roi) (cvtColor_bgr roi) in
           let* out :=
             match circles_abs with
             | [] => ret out
             | _ :: _ => draw_circles out circles16
             end in
           let* _ := call (CallImwriteCircles (circles_file actor_id) out)
                       (imwrite_out (circles_file actor_id) out) in
           ret tt
      else ret tt in
    match circles_abs with
    | [] => ret (false, None, (x1, y1, x2, y2))
    | c :: rest =>
      let best_circle := min_from (x_offset x) c rest in
      ret (true, Some best_circle, (x1, y1, x2, y2))
    end
  end.

(** The blur and circle-search calls of a log, as entries of the log of
    [Detector.verify_head_circle]. *)
Definition detection_calls (log : list head_call) : list (@event pixel) :=
  omap (λ c, match c with
             | CallGaussianBlur roi => Some (EvGaussianBlur roi)
             | CallHoughCircles roi => Some (EvHoughCircles roi)
             | _ => None
             end) log.

End Debug.

End HeadDebug.

(** ** A worked sheet

    A concrete image and concrete stand-ins for the external calls, used
    to run the pipeline on an explicit input. *)

Module Scenario.

Import Geometry Numpy Effects Detector.

(** A dark 160 x 140 sheet with three bright marks, at (50, 40),
    (70, 40) and (120, 40). *)
Definition sheet : array2 Z :=
  (λ y : Z,
     (λ x : Z, if (y =? 40) && ((x =? 50) || (x =? 70) || (x =? 120)) then 255 else 0)
       <$> seqZ 0 160)
    <$> seqZ 0 140.

Definition gray_of (img : array2 Z) : outcome (array2 Z) := Ret img.

(** Five responses for the smallest template, none for the others. *)
Definition locations (binary : array2 Z) (size : Z) : outcome (list point) :=
  if size =? 40 then Ret [(30, 30); (31, 30); (50, 30); (100, 30); (30, 80)] else Ret [].

Definition blur (roi : array2 Z) : outcome (array2 Z) := Ret roi.

Definition marks_in_row (y : Z) (row : list Z) : list circle :=
  (λ '(x, v), (x, y, 8)) <$> List.filter (λ '(x, v), v =? 255) (enumerate 0 row).

(** One circle of radius 8 per bright pixel of the region, in raster order. *)
Definition hough (roi : array2 Z) : outcome (option (list circle)) :=
  match concat ((λ '(y, row), marks_in_row y row) <$> enumerate 0 roi) with
  | [] => Ret None
  | cs => Ret (Some cs)
  end.

(** Two spans, whatever the region shows. *)
Definition ocr (roi : array2 Z) : outcome (list (box * string)) :=
  Ret [((0, 0, 40, 12), "User"%string); ((0, 14, 40, 26), " Admin "%string)].

Definition overlay (binary : array2 Z) (actors : list point) (debug_info : list debug_entry)
  : outcome unit := Ret tt.

Definition run : M event (Z * list point * list record) :=
  detect_actors sheet gray_of locations blur hough ocr overlay.

(** What the run returns: two actors, four records. *)
Definition final_positions : list point := [(50, 50); (120, 50)].

Definition raw_records : list record :=
  [(1, "User  Admin"%string); (2, "User  Admin"%string); (3, "User  Admin"%string);
   (4, ""%string)].

End Scenario.

(** ** A worked debug run

    Concrete stand-ins for the calls of the debug branch of
    [verify_head_circle]: the files are written, the canvas is the region
    itself and drawing leaves it as it is. *)

Module DebugScenario.

Import Geometry Numpy Effects Detector HeadDebug.

Definition imwrite (filename : string) (img : array2 Z) : outcome bool := Ret true.

Definition gray2bgr (roi : array2 Z) : outcome (array2 Z) := Ret roi.

Definition draw (out : array2 Z) (center : Z * Z) (radius : Z) : outcome (array2 Z) :=
  Ret out.

(** [verify_head_circle(binary, (120, 50), actor_id=2)] on the sheet of
    [Scenario], with [debug] as given. *)
Definition run (debug : bool) : Effects.M head_call (bool * option circle * box) :=
  verify_head_circle_debug Scenario.sheet Scenario.blur Scenario.hough imwrite gray2bgr
    draw imwrite debug Scenario.sheet (120, 50) (Some 2) 35 50.

End DebugScenario.

(** ** A worked upload

    Concrete stand-ins for the file system, the detector and the PDF
    builders, used to run the endpoint on an explicit request. *)

Module Upload.

Import Geometry Effects Detector.

Definition temp_file (suffix : string) : outcome string :=
  Ret (String.append "tmp/tmpk3x9" suffix).

Definition copyfileobj (path : string) : outcome unit := Ret tt.

Definition copy_fails (path : string) : outcome unit := Raise "No space left on device".

Definition close (path : string) : outcome unit := Ret tt.

Definition detector (path : string) (debug : bool)
    : outcome (Z * list point * list record) :=
  Ret (2, Scenario.final_positions, Scenario.raw_records).

Definition create_actors_pdf (actors_list : list record) (detection_date : string)
    (image_path : option string) : outcome string := Ret "%PDF-1.4 report"%string.

Definition create_compact_actors_pdf (actors_list : list record) : outcome string :=
  Ret "%PDF-1.4 compact"%string.

Definition exists_path (path : string) : bool := true.

Definition http_str (status_code : Z) (detail : string) : string :=
  String.append "400: " detail.

(** The request: a file [diagram.PNG], with the given copy function. *)
Definition request (copy : string → outcome unit) (debug : bool) (format : string)
    (include_empty : bool) : (Endpoint.http_exception + Endpoint.reply) * list Endpoint.action :=
  Endpoint.detect_actors temp_file copy close detector create_actors_pdf
    create_compact_actors_pdf exists_path "2025-01-01T12:00:00" "20250101_120000"
    "diagram" ".PNG" ".png, .jpg, .jpeg, .bmp, .tiff, .webp" http_str
    debug format include_empty.

End Upload.

(** * Properties *)

(** ** Greedy suppression *)

Module GeometryFacts.

Import Geometry.

Lemma dist_sq_sym a b : dist_sq a b = dist_sq b a.
Proof. unfold dist_sq. ring. Qed.

Lemma dist_gt_sym d a b : dist_gt d a b = dist_gt d b a.
Proof. unfold dist_gt. by rewrite dist_sq_sym. Qed.

Lemma separated_nil d : separated d [].
Proof. intros i j a b _ Hi. by rewrite lookup_nil in Hi. Qed.

Lemma separated_snoc d l a :
  separated d l → forallb (dist_gt d a) l = true → separated d (l ++ [a]).
Proof.
  intros Hsep Hall i j x y Hij Hi Hj.
  assert (Hlen : (j < length (l ++ [a]))%nat) by (eapply lookup_lt_Some; eauto).
  rewrite length_app in Hlen. simpl in Hlen.
  rewrite lookup_app_l in Hi by lia.
  destruct (decide (j < length l)%nat) as [Hlt | Hge].
  - rewrite lookup_app_l in Hj by lia. eauto.
  - assert (j = length l) as -> by lia.
    rewrite list_lookup_middle in Hj by done. injection Hj as <-.
    rewrite forallb_forall in Hall. apply Hall.
    apply list_elem_of_In. by eapply list_elem_of_lookup_2.
Qed.

Lemma separated_far_from_prefix d l a k :
  separated d (l ++ a :: k) → forallb (dist_gt d a) l = true.
Proof.
  intros Hsep. apply forallb_forall. intros b Hb.
  apply list_elem_of_In, list_elem_of_lookup in Hb as [i Hi].
  apply (Hsep i (length l) a b).
  - by eapply lookup_lt_Some.
  - by apply lookup_app_l_Some.
  - by apply list_lookup_middle.
Qed.

Lemma append_if_far_separated d acc a :
  separated d acc → separated d (append_if_far d acc a).
Proof.
  intros Hsep. unfold append_if_far.
  destruct (forallb (dist_gt d a) acc) eqn:Hall; [by apply separated_snoc | done].
Qed.

Lemma keep_far_separated d l : ∀ acc, separated d acc → separated d (keep_far d acc l).
Proof.
  induction l as [| a l IH]; intros acc Hsep; [done |].
  apply IH. by apply append_if_far_separated.
Qed.

Lemma keep_far_fixed d l : ∀ acc, separated d (acc ++ l) → keep_far d acc l = acc ++ l.
Proof.
  induction l as [| a l IH]; intros acc Hsep; simpl.
  - by rewrite app_nil_r.
  - unfold append_if_far.
    rewrite (separated_far_from_prefix d acc a l Hsep).
    rewrite (IH (acc ++ [a])); by rewrite <- app_assoc.
Qed.

(** Appending never drops or reorders what is already accepted. *)
Lemma keep_far_prefix d l : ∀ acc, ∃ k, keep_far d acc l = acc ++ k ∧ k ⊆ l.
Proof.
  induction l as [| a l IH]; intros acc; simpl.
  - exists []. split; [by rewrite app_nil_r | done].
  - unfold append_if_far. destruct (forallb (dist_gt d a) acc).
    + destruct (IH (acc ++ [a])) as (k & -> & Hk).
      exists (a :: k). rewrite <- app_assoc. split; [done |].
      intros x Hx. apply elem_of_cons in Hx as [-> | Hx]; [left | right; auto].
    + destruct (IH acc) as (k & -> & Hk).
      exists k. split; [done |]. intros x Hx. right. auto.
Qed.

Lemma keep_far_subset d l x : x ∈ keep_far d [] l → x ∈ l.
Proof.
  destruct (keep_far_prefix d l []) as (k & -> & Hk). simpl. apply Hk.
Qed.

Lemma separated_distinct d l (i j : nat) a b :
  separated d l → i ≠ j → l !! i = Some a → l !! j = Some b → dist_gt d a b = true.
Proof.
  intros Hsep Hne Hi Hj.
  destruct (decide (i < j)%nat).
  - rewrite dist_gt_sym. eauto.
  - apply (Hsep j i a b); [lia | done | done].
Qed.

End GeometryFacts.

(** ** Slicing *)

Module NumpyFacts.

Import Numpy.

Lemma slice_length {A} (l : list A) (i j : Z) :
  0 ≤ i →
  0 ≤ j →
  length (slice l i j) = Z.to_nat (Z.min j (Z.of_nat (length l)) - Z.min i (Z.of_nat (length l))).
Proof.
  intros Hi Hj. unfold slice, slice_index.
  destruct (Z.ltb_spec i 0); [lia |]. destruct (Z.ltb_spec j 0); [lia |].
  rewrite length_take, length_drop. lia.
Qed.

Lemma slice_rect {A} (w : nat) (a : array2 A) (i j : Z) : rect w a → rect w (slice a i j).
Proof.
  unfold rect, slice. intros H.
  apply Forall_take, Forall_drop, H.
Qed.

Lemma crop_nrows {A} (a : array2 A) (y1 y2 x1 x2 : Z) :
  0 ≤ y1 →
  0 ≤ y2 →
  nrows (crop a y1 y2 x1 x2)
  = Z.to_nat (Z.min y2 (Z.of_nat (nrows a)) - Z.min y1 (Z.of_nat (nrows a))).
Proof.
  intros. unfold crop, nrows. rewrite length_fmap. by apply slice_length.
Qed.

Lemma crop_rect {A} (w : nat) (a : array2 A) (y1 y2 x1 x2 : Z) :
  rect w a →
  0 ≤ x1 →
  0 ≤ x2 →
  rect (Z.to_nat (Z.min x2 (Z.of_nat w) - Z.min x1 (Z.of_nat w))) (crop a y1 y2 x1 x2).
Proof.
  intros Hrect Hx1 Hx2. unfold crop, rect.
  apply Forall_fmap. eapply Forall_impl; [apply (slice_rect w a y1 y2 Hrect) |].
  intros r Hr. simpl. rewrite slice_length by done. by rewrite Hr.
Qed.

End NumpyFacts.

(** ** Computations *)

Module EffectsFacts.

Import Effects.

Lemma bind_Ret_inv {E A B} (m : M E A) (k : A → M E B) (b : B) (log : list E) :
  bind m k = (Ret b, log) →
  ∃ a l1 l2, m = (Ret a, l1) ∧ k a = (Ret b, l2) ∧ log = l1 ++ l2.
Proof.
  unfold bind. destruct m as [[a | e] l1]; [| done].
  destruct (k a) as [r l2] eqn:Hk. intros [= -> <-]. by exists a, l1, l2.
Qed.

Lemma bind_Ret {E A B} (m : M E A) (k : A → M E B) (a : A) (b : B) (l1 l2 : list E) :
  m = (Ret a, l1) → k a = (Ret b, l2) → bind m k = (Ret b, l1 ++ l2).
Proof. intros -> Hk. unfold bind. by rewrite Hk. Qed.

End EffectsFacts.

(** ** The claims of the specification *)

Import Geometry Numpy Effects Detector.
Import GeometryFacts NumpyFacts EffectsFacts.

(** C8. The greedy 25 px duplicate-merge step is a fixed point on its own
    output: for every list of points, merging the merged list again
    returns it unchanged. *)
Theorem remove_near_duplicates_fixed_point (verified : list point) :
  remove_near_duplicates (remove_near_duplicates verified)
  = remove_near_duplicates verified.
Proof.
  unfold remove_near_duplicates.
  apply (keep_far_fixed 25 (keep_far 25 [] verified) []).
  apply keep_far_separated, separated_nil.
Qed.

(** C3. Filter-and-renumber on [(1,"Alice"),(2,""),(3,"  "),(4,"Bob")]
    gives [(1,"Alice"),(2,"Bob")] with total_detected 4, with_names 2 and
    without_names 2, and the final count that [main.py] reports is 2. *)
Theorem filter_and_renumber_alice_bob :
  let actors_list :=
    [(1, "Alice"%string); (2, ""%string); (3, "  "%string); (4, "Bob"%string)] in
  let named := [(1, "Alice"%string); (2, "Bob"%string)] in
  Report.filter_and_renumber_actors actors_list
  = (named,
     {| Report.total_detected := 4;
        Report.with_names := 2;
        Report.without_names := 2;
        Report.filtered_list := named |})
  ∧ Report.report_statistics actors_list
    = (named,
       {| Report.stat_total_detected := 4;
          Report.stat_with_names := 2;
          Report.stat_without_names := 2;
          Report.in_final_report := 2 |}).
Proof. split; reflexivity. Qed.

Lemma threshold_binary_mask (mask : array2 Z) :
  binary_valued mask → threshold_binary 50 255 mask = mask.
Proof.
  unfold threshold_binary. induction 1 as [| row mask Hrow _ IH]; [done |].
  rewrite fmap_cons, IH. f_equal.
  induction Hrow as [| v row Hv _ IHrow]; [done |].
  rewrite fmap_cons, IHrow. by destruct Hv as [-> | ->].
Qed.

(** C7, as the code has it. Binarizing a mask whose pixels all lie in
    {0, 255} and whose mean does not exceed 127, so that the polarity test
    of [preprocess] does not invert it, returns the mask itself. *)
Theorem binarize_mask_unchanged (mask : array2 Z) :
  binary_valued mask → mean_gt mask 127 = false → binarize mask = mask.
Proof.
  intros Hmask Hpol. unfold binarize. rewrite Hpol.
  by apply threshold_binary_mask.
Qed.

Lemma binarize_mask_unchanged_witness :
  binarize [[0; 255; 0]; [0; 0; 255]] = [[0; 255; 0]; [0; 0; 255]].
Proof.
  apply binarize_mask_unchanged.
  - unfold binary_valued.
    repeat first [apply Forall_nil_2 | apply Forall_cons_2]; (by left) || (by right).
  - reflexivity.
Defined.

(** A mask that is mostly foreground is taken for a dark-on-light image
    and comes back inverted. *)
Example binarize_dense_mask : binarize [[255; 255; 0]] = [[0; 0; 255]].
Proof. reflexivity. Qed.

(** C7, as the specification states it, fails.  The mask [[255; 255; 0]]
    has only the values 0 and 255 and its foreground is the high value:
    it is what the binarizer itself returns for the grey image
    [[100; 100; 0]].  Binarized again it comes back inverted, because its
    mean exceeds 127.  The same happens to a mask in which the bright
    pixels are the minority, 499 of 1000. *)
Lemma binarize_mask_inverted_counterexample :
  binary_valued [[255; 255; 0]]
  ∧ binarize [[100; 100; 0]] = [[255; 255; 0]]
  ∧ binarize [[255; 255; 0]] = [[0; 0; 255]]
  ∧ binarize [[255; 255; 0]] ≠ [[255; 255; 0]]
  ∧ binary_valued [replicate 499 255 ++ replicate 501 0]
  ∧ binarize [replicate 499 255 ++ replicate 501 0]
    ≠ [replicate 499 255 ++ replicate 501 0].
Proof.
  split.
  { unfold binary_valued.
    repeat first [apply Forall_nil_2 | apply Forall_cons_2]; (by left) || (by right). }
  split; [reflexivity |]. split; [reflexivity |]. split; [discriminate |]. split.
  - unfold binary_valued. apply Forall_cons_2; [| apply Forall_nil_2].
    apply Forall_app. split; apply Forall_forall; intros v Hv;
      apply elem_of_replicate in Hv as [-> _]; auto.
  - intros Heq. vm_compute in Heq. discriminate.
Qed.

Section Degenerate.

Context {pixel : Type}.
Variable image : array2 pixel.
Variable GaussianBlur : array2 Z → outcome (array2 Z).
Variable HoughCircles : array2 Z → outcome (option (list circle)).
Variable readtext : array2 pixel → outcome (list (box * string)).

(** C9. A head-search region or a caption region that is clipped to zero
    area yields the normal not-found value: not confirmed and no circle
    for the head, the empty caption for the text, in both cases without
    any external call and without an exception. *)
Theorem degenerate_roi_not_found (binary : array2 Z) (x y search_height search_width : Z) :
  (size (crop binary (Z.max 0 (y - search_height)) y
           (Z.max 0 (x - search_width `div` 2))
           (Z.min (width image) (x + search_width `div` 2))) = 0%nat →
   verify_head_circle image GaussianBlur HoughCircles binary (x, y)
     search_height search_width
   = (Ret (false, None,
           (Z.max 0 (x - search_width `div` 2), Z.max 0 (y - search_height),
            Z.min (width image) (x + search_width `div` 2), y)),
      []))
  ∧ (size (crop image (y + 10) (Z.min (height image) (y + 80))
             (Z.max 0 (x - 80)) (Z.min (width image) (x + 80))) = 0%nat →
     extract_text_below image readtext (x, y) = (Ret (EmptyString, None), [])).
Proof.
  split; intros Hsize.
  - unfold verify_head_circle. by rewrite Hsize.
  - unfold extract_text_below.
    change (160 `div` 2) with 80. by rewrite Hsize.
Qed.

End Degenerate.

Lemma degenerate_roi_not_found_witness :
  verify_head_circle Scenario.sheet Scenario.blur Scenario.hough Scenario.sheet (50, 0) 35 50
  = (Ret (false, None, (25, 0, 75, 0)), [])
  ∧ extract_text_below Scenario.sheet Scenario.ocr (50, 135) = (Ret (EmptyString, None), []).
Proof.
  split.
  - apply (proj1 (degenerate_roi_not_found Scenario.sheet Scenario.blur Scenario.hough
                    Scenario.ocr Scenario.sheet 50 0 35 50)).
    vm_compute. reflexivity.
  - apply (proj2 (degenerate_roi_not_found Scenario.sheet Scenario.blur Scenario.hough
                    Scenario.ocr Scenario.sheet 50 135 35 50)).
    vm_compute. reflexivity.
Defined.

Lemma keep_far_snoc (d : Z) (acc l : list point) (a : point) :
  keep_far d acc (l ++ [a]) = append_if_far d (keep_far d acc l) a.
Proof. unfold keep_far. by rewrite fold_left_app. Qed.

Lemma keep_far_app (d : Z) (acc l k : list point) :
  keep_far d acc (l ++ k) = keep_far d (keep_far d acc l) k.
Proof. unfold keep_far. by rewrite fold_left_app. Qed.

Section Matcher.

Context {pixel : Type}.
Variable match_locations : array2 Z → Z → outcome (list point).

Lemma match_sizes_greedy (binary : array2 Z) (sizes : list Z) :
  ∀ (actors0 actors : list point) (log : list (@event pixel)),
    match_sizes match_locations binary sizes actors0 = (Ret actors, log) →
    ∃ locs : list (list point),
      Forall2 (λ size l, match_locations binary size = Ret l) sizes locs
      ∧ actors = keep_far 15 actors0 (all_centers sizes locs).
Proof.
  induction sizes as [| size sizes IH]; intros actors0 actors log Hrun.
  - injection Hrun as <- <-. exists []. split; [constructor | done].
  - simpl in Hrun. apply bind_Ret_inv in Hrun as (l & l1 & l2 & Hcall & Hrest & ->).
    injection Hcall as Hloc <-.
    apply IH in Hrest as (locs & Hall & ->).
    exists (l :: locs). split; [by constructor |].
    unfold all_centers. simpl. by rewrite keep_far_app.
Qed.

(** C6. Any two distinct candidates returned by the template matcher are
    strictly more than 15 px apart: the result is the greedy pass over
    the glyph centres, template sizes in increasing order and locations
    in raster order, in which a centre is appended only if it is farther
    than 15 px from everything accepted before it. *)
Theorem template_candidates_far_apart (binary : array2 Z) (actors : list point)
    (log : list (@event pixel)) :
  find_actors_by_template match_locations binary = (Ret actors, log) →
  (∀ (i j : nat) (a b : point),
      i ≠ j → actors !! i = Some a → actors !! j = Some b → 15 * 15 < dist_sq a b)
  ∧ ∃ locs : list (list point),
      Forall2 (λ size l, match_locations binary size = Ret l) [40; 50; 60; 70; 80] locs
      ∧ actors = keep_far 15 [] (all_centers [40; 50; 60; 70; 80] locs)
      ∧ ∀ (before after : list point) (c : point),
          all_centers [40; 50; 60; 70; 80] locs = before ++ c :: after →
          keep_far 15 [] (before ++ [c])
          = if forallb (dist_gt 15 c) (keep_far 15 [] before)
            then keep_far 15 [] before ++ [c]
            else keep_far 15 [] before.
Proof.
  intros Hrun. unfold find_actors_by_template in Hrun.
  apply match_sizes_greedy in Hrun as (locs & Hlocs & ->).
  split.
  - intros i j a b Hne Hi Hj. apply Z.ltb_lt.
    change (15 * 15 <? dist_sq a b) with (dist_gt 15 a b).
    eapply separated_distinct; [| done..].
    apply keep_far_separated, separated_nil.
  - exists locs. split; [done |]. split; [done |].
    intros before after c _. apply keep_far_snoc.
Qed.

End Matcher.

Lemma template_candidates_far_apart_witness :
  15 * 15 < dist_sq (50, 50) (70, 50) ∧ 15 * 15 < dist_sq (120, 50) (50, 100).
Proof.
  destruct (template_candidates_far_apart (pixel:=Z) Scenario.locations Scenario.sheet
              [(50, 50); (70, 50); (120, 50); (50, 100)]
              [EvMatchTemplate 40; EvMatchTemplate 50; EvMatchTemplate 60;
               EvMatchTemplate 70; EvMatchTemplate 80])
    as [Hfar _].
  - vm_compute. reflexivity.
  - split.
    + apply (Hfar 0%nat 1%nat); [lia | reflexivity | reflexivity].
    + apply (Hfar 2%nat 3%nat); [lia | reflexivity | reflexivity].
Defined.

(** [min] returns the first entry among those with the least key. *)
Lemma min_from_first_least {A} (key : A → Z) (l : list A) :
  ∀ best : A,
    ∃ before after : list A,
      best :: l = before ++ min_from key best l :: after
      ∧ (∀ c, c ∈ before → key (min_from key best l) < key c)
      ∧ (∀ c, c ∈ after → key (min_from key best l) ≤ key c).
Proof.
  induction l as [| c l IH]; intros best; simpl.
  - exists [], []. split; [done |]. split; intros c Hc; by apply elem_of_nil in Hc.
  - destruct (Z.ltb_spec (key c) (key best)) as [Hcb | Hcb].
    + destruct (IH c) as (l1 & l2 & Heq & Hlt & Hle).
      generalize dependent (min_from key c l). intros m Heq Hlt Hle.
      exists (best :: l1), l2. rewrite Heq. split; [done |]. split; [| done].
      intros c' Hc'. apply elem_of_cons in Hc' as [-> | Hc']; [| by apply Hlt].
      destruct l1 as [| c1 l1]; simpl in Heq; injection Heq as Hhd Htl.
      * by subst m.
      * subst c1. specialize (Hlt c ltac:(left)). lia.
    + destruct (IH best) as (l1 & l2 & Heq & Hlt & Hle).
      generalize dependent (min_from key best l). intros m Heq Hlt Hle.
      destruct l1 as [| c1 l1]; simpl in Heq; injection Heq as Hhd Htl.
      * subst m l2. exists [], (c :: l). split; [done |]. split.
        { intros c' Hc'. by apply elem_of_nil in Hc'. }
        intros c' Hc'. apply elem_of_cons in Hc' as [-> | Hc']; [lia |].
        by apply Hle.
      * subst c1. exists (best :: c :: l1), l2. rewrite Htl. split; [done |].
        split; [| done].
        intros c' Hc'. pose proof (Hlt best ltac:(left)) as Hbest.
        apply elem_of_cons in Hc' as [-> | Hc']; [done |].
        apply elem_of_cons in Hc' as [-> | Hc']; [lia |].
        apply Hlt. by right.
Qed.

Section HeadVerifier.

Context {pixel : Type}.
Variable image : array2 pixel.
Variable GaussianBlur : array2 Z → outcome (array2 Z).
Variable HoughCircles : array2 Z → outcome (option (list circle)).

(** What a confirming run of [verify_head_circle] went through. *)
Lemma verify_head_circle_confirmed (binary : array2 Z) (x y search_height search_width : Z)
    (found : option circle) (roi_box : box) (log : list (@event pixel)) :
  verify_head_circle image GaussianBlur HoughCircles binary (x, y)
    search_height search_width = (Ret (true, found, roi_box), log) →
  ∃ (roi_blur : array2 Z) (circles : list circle) (c : circle) (rest : list circle),
    HoughCircles roi_blur = Ret (Some circles)
    ∧ EvHoughCircles roi_blur ∈ log
    ∧ List.filter (head_above x y)
        (circles_abs (Z.max 0 (x - search_width `div` 2))
           (Z.max 0 (y - search_height)) circles) = c :: rest
    ∧ found = Some (min_from (x_offset x) c rest).
Proof.
  unfold verify_head_circle. intros Hrun.
  set (x1 := Z.max 0 (x - search_width `div` 2)) in *.
  set (y1 := Z.max 0 (y - search_height)) in *.
  destruct (Nat.eqb _ 0); [by injection Hrun |].
  apply bind_Ret_inv in Hrun as (roi_blur & l1 & l2 & Hblur & Hrun & ->).
  apply bind_Ret_inv in Hrun as (circles & l3 & l4 & Hhough & Hrun & ->).
  injection Hhough as Hhough <-.
  destruct circles as [circles |]; [| by injection Hrun].
  destruct (List.filter (head_above x y) (circles_abs x1 y1 circles))
    as [| c rest] eqn:Hfilter; [by injection Hrun |].
  injection Hrun as <- _ _.
  exists roi_blur, circles, c, rest. repeat split; try done.
  apply elem_of_app. right. apply elem_of_app. left. by left.
Qed.

(** C5. When head verification confirms a candidate (x, y), the circle
    (cx, cy, r) it returns lies strictly above the candidate, cy < y,
    and within 25 px of it horizontally, |cx - x| < 25; among the
    detected circles that pass this filter it has the least |cx - x|,
    and it is the first one found with that distance. *)
Theorem head_circle_closest_first (binary : array2 Z) (x y search_height search_width : Z)
    (found : option circle) (roi_box : box) (log : list (@event pixel)) :
  verify_head_circle image GaussianBlur HoughCircles binary (x, y)
    search_height search_width = (Ret (true, found, roi_box), log) →
  ∃ cx cy r : Z,
    found = Some (cx, cy, r)
    ∧ cy < y
    ∧ Z.abs (cx - x) < 25
    ∧ ∃ (roi_blur : array2 Z) (circles before after : list circle),
        HoughCircles roi_blur = Ret (Some circles)
        ∧ EvHoughCircles roi_blur ∈ log
        ∧ List.filter (head_above x y)
            (circles_abs (Z.max 0 (x - search_width `div` 2))
               (Z.max 0 (y - search_height)) circles)
          = before ++ (cx, cy, r) :: after
        ∧ (∀ c : circle, c ∈ before → Z.abs (cx - x) < Z.abs (c.1.1 - x))
        ∧ (∀ c : circle, c ∈ after → Z.abs (cx - x) ≤ Z.abs (c.1.1 - x)).
Proof.
  intros Hrun.
  apply verify_head_circle_confirmed in Hrun
    as (roi_blur & circles & c & rest & Hhough & Hlog & Hfilter & ->).
  destruct (min_from_first_least (x_offset x) rest c) as (before & after & Hsplit & Hlt & Hle).
  destruct (min_from (x_offset x) c rest) as [[cx cy] r] eqn:Hbest.
  assert (Hpass : head_above x y (cx, cy, r) = true).
  { assert (Hin : In (cx, cy, r)
                    (List.filter (head_above x y)
                       (circles_abs (Z.max 0 (x - search_width `div` 2))
                          (Z.max 0 (y - search_height)) circles))).
    { rewrite Hfilter, Hsplit. apply in_or_app. right. by left. }
    by apply filter_In in Hin as [_ ?]. }
  simpl in Hpass. apply andb_true_iff in Hpass as [Hy Hx].
  apply Z.ltb_lt in Hy. apply Z.ltb_lt in Hx.
  exists cx, cy, r. split; [done |]. split; [done |]. split; [done |].
  exists roi_blur, circles, before, after.
  split; [done |]. split; [done |]. split; [by rewrite Hfilter |].
  split; [apply Hlt | apply Hle].
Qed.

End HeadVerifier.

Lemma head_circle_closest_first_witness :
  ∃ cx cy r : Z,
    Some (70, 40, 8) = Some (cx, cy, r) ∧ cy < 50 ∧ Z.abs (cx - 70) < 25.
Proof.
  destruct (head_circle_closest_first Scenario.sheet Scenario.blur Scenario.hough
              Scenario.sheet 70 50 35 50 (Some (70, 40, 8)) (45, 15, 95, 50)
              [EvGaussianBlur (crop Scenario.sheet 15 50 45 95);
               EvHoughCircles (crop Scenario.sheet 15 50 45 95)])
    as (cx & cy & r & Hfound & Hy & Hx & _).
  - vm_compute. reflexivity.
  - exists cx, cy, r. auto.
Defined.

(** ** The caption region *)

Lemma slice_lookup_window {A} (l : list A) (i j : Z) (k : nat) :
  0 ≤ i →
  0 ≤ j →
  slice l i j !! k
  = if decide (i + Z.of_nat k < j) then l !! (Z.to_nat i + k)%nat else None.
Proof.
  intros Hi Hj. unfold slice, slice_index.
  destruct (Z.ltb_spec i 0); [lia |]. destruct (Z.ltb_spec j 0); [lia |].
  set (n := Z.of_nat (length l)).
  destruct (decide (Z.of_nat k < Z.min j n - Z.min i n)) as [Hk | Hk].
  - rewrite lookup_take_lt by lia. rewrite lookup_drop.
    rewrite decide_True by lia. f_equal. lia.
  - rewrite lookup_take_ge by lia.
    case_decide; [| done].
    symmetry. apply lookup_ge_None. lia.
Qed.

Lemma crop_window {A} (a : array2 A) (y1 y2 x1 x2 : Z) (r c : nat) (v : A) :
  0 ≤ y1 →
  0 ≤ y2 →
  0 ≤ x1 →
  0 ≤ x2 →
  at2 (crop a y1 y2 x1 x2) r c = Some v
  ↔ y1 + Z.of_nat r < y2
    ∧ x1 + Z.of_nat c < x2
    ∧ at2 a (Z.to_nat y1 + r) (Z.to_nat x1 + c) = Some v.
Proof.
  intros Hy1 Hy2 Hx1 Hx2. unfold at2, crop.
  rewrite list_lookup_fmap, slice_lookup_window by done.
  case_decide as Hr; simpl.
  - destruct (a !! (Z.to_nat y1 + r)%nat) as [row |]; simpl.
    + rewrite slice_lookup_window by done.
      case_decide as Hc; [tauto |]. split; [done | tauto].
    + split; [done | tauto].
  - split; [done | tauto].
Qed.

Lemma at2_in_range {A} (w : nat) (a : array2 A) (y x : nat) (v : A) :
  rect w a → at2 a y x = Some v → (y < nrows a)%nat ∧ (x < w)%nat.
Proof.
  unfold at2, rect, nrows. intros Hrect Hv.
  destruct (a !! y) as [row |] eqn:Hrow; [| done].
  split; [by eapply lookup_lt_Some |].
  rewrite Forall_lookup in Hrect. rewrite <- (Hrect y row Hrow).
  by eapply lookup_lt_Some.
Qed.

Section Caption.

Context {pixel : Type}.
Variable image : array2 pixel.
Variable readtext : array2 pixel → outcome (list (box * string)).

Lemma extract_text_below_roi (x y : Z) (result : outcome (string * option box))
    (roi : array2 pixel) (log : list (@event pixel)) :
  extract_text_below image readtext (x, y) = (result, log) →
  EvReadtext roi ∈ log →
  roi = crop image (y + 10) (Z.min (height image) (y + 80))
          (Z.max 0 (x - 80)) (Z.min (width image) (x + 80)).
Proof.
  unfold extract_text_below. change (160 `div` 2) with 80.
  destruct (Nat.eqb _ 0).
  - intros [= _ <-] Hin. by apply elem_of_nil in Hin.
  - unfold bind, call, ret. destruct (readtext _) as [spans | e].
    + intros [= _ <-] Hin. apply list_elem_of_singleton in Hin. by injection Hin.
    + intros [= _ <-] Hin. apply list_elem_of_singleton in Hin. by injection Hin.
Qed.

(** C4, as the code has it. The region handed to text recognition for a
    candidate (x, y) holds exactly the image pixels of rows y+10 .. y+79
    and columns x-80 .. x+79: it starts 10 px below y, ends 80 px below
    y (so it is at most 70 px high), is 160 px wide centred on x, and is
    clipped to the image. *)
Theorem caption_roi_window (x y : Z) (result : outcome (string * option box))
    (roi : array2 pixel) (log : list (@event pixel)) :
  rect (ncols image) image →
  0 ≤ x →
  0 ≤ y →
  extract_text_below image readtext (x, y) = (result, log) →
  EvReadtext roi ∈ log →
  (nrows roi ≤ 70)%nat
  ∧ Forall (λ row, (length row ≤ 160)%nat) roi
  ∧ ∀ (i j : nat) (v : pixel),
      at2 roi i j = Some v
      ↔ y + 10 + Z.of_nat i < y + 80
        ∧ Z.max 0 (x - 80) + Z.of_nat j < x + 80
        ∧ at2 image (Z.to_nat (y + 10) + i) (Z.to_nat (Z.max 0 (x - 80)) + j) = Some v.
Proof.
  intros Hrect Hx Hy Hrun Hin.
  rewrite (extract_text_below_roi x y result roi log Hrun Hin).
  unfold height, width. split; [| split].
  - rewrite crop_nrows by lia. lia.
  - eapply Forall_impl.
    + apply (crop_rect (ncols image)); [done | lia | lia].
    + intros row ->. lia.
  - intros i j v. rewrite crop_window by lia. split.
    + intros (Hi & Hj & Hv). split; [lia |]. split; [lia | done].
    + intros (Hi & Hj & Hv). split; [| split]; [| | done].
      * apply (at2_in_range _ _ _ _ _ Hrect) in Hv as [Hr _]. lia.
      * apply (at2_in_range _ _ _ _ _ Hrect) in Hv as [_ Hc]. lia.
Qed.

End Caption.

Lemma sheet_rect : rect (ncols Scenario.sheet) Scenario.sheet.
Proof.
  unfold rect. apply Forall_forall. intros row Hrow.
  unfold Scenario.sheet in Hrow. apply list_elem_of_fmap in Hrow as (y & -> & _).
  rewrite length_fmap. reflexivity.
Qed.

Lemma caption_roi_window_witness :
  (nrows (crop Scenario.sheet 60 130 0 130) ≤ 70)%nat
  ∧ Forall (λ row, (length row ≤ 160)%nat) (crop Scenario.sheet 60 130 0 130).
Proof.
  pose proof (caption_roi_window Scenario.sheet Scenario.ocr 50 50
                (Ret ("User  Admin"%string, Some (0, 60, 130, 130)))
                (crop Scenario.sheet 60 130 0 130)
                [EvReadtext (crop Scenario.sheet 60 130 0 130)]) as H.
  destruct H as (Hrows & Hcols & _).
  - apply sheet_rect.
  - lia.
  - lia.
  - vm_compute. reflexivity.
  - apply list_elem_of_singleton. reflexivity.
  - split; assumption.
Defined.

(** C4, as the specification states it, fails: for the confirmed
    candidate (50, 50) of the worked sheet the region handed to text
    recognition has 70 rows, while a rectangle 80 px high would have 80. *)
Lemma caption_roi_height_counterexample :
  head_confirmed Scenario.sheet Scenario.blur Scenario.hough Scenario.sheet (50, 50) = true
  ∧ ∃ roi : array2 Z,
      extract_text_below Scenario.sheet Scenario.ocr (50, 50)
      = (Ret ("User  Admin"%string, Some (0, 60, 130, 130)), [EvReadtext roi])
      ∧ nrows roi = 70%nat
      ∧ nrows (caption_rect_spec Scenario.sheet (50, 50)) = 80%nat
      ∧ roi ≠ caption_rect_spec Scenario.sheet (50, 50).
Proof.
  split; [vm_compute; reflexivity |].
  exists (crop Scenario.sheet 60 130 0 130).
  split; [vm_compute; reflexivity |].
  split; [vm_compute; reflexivity |].
  split; [vm_compute; reflexivity |].
  intros Heq. apply (f_equal length) in Heq. vm_compute in Heq. discriminate.
Qed.

(** ** The detection run *)

Lemma keep_far_length (d : Z) (l : list point) :
  ∀ acc, (length (keep_far d acc l) ≤ length acc + length l)%nat.
Proof.
  induction l as [| a l IH]; intros acc; simpl; [lia |].
  etrans; [apply IH |]. unfold append_if_far.
  destruct (forallb _ acc); [rewrite length_app; simpl |]; lia.
Qed.

Lemma filter_length_le {A} (f : A → bool) (l : list A) :
  (length (List.filter f l) ≤ length l)%nat.
Proof. induction l as [| a l IH]; simpl; [lia |]. destruct (f a); simpl; lia. Qed.

Lemma enumerate_length {A} (l : list A) : ∀ start, length (enumerate start l) = length l.
Proof. induction l as [| a l IH]; intros start; simpl; [done |]. by rewrite IH. Qed.

Lemma enumerate_lookup {A} (l : list A) :
  ∀ (start : Z) (i : nat) (a : A),
    l !! i = Some a → enumerate start l !! i = Some (start + Z.of_nat i, a).
Proof.
  induction l as [| b l IH]; intros start i a Hi; [done |].
  destruct i as [| i]; simpl in *.
  - injection Hi as ->. do 2 f_equal. lia.
  - rewrite (IH (start + 1) i a Hi). do 2 f_equal. lia.
Qed.

Section Run.

Context {pixel : Type}.
Variable image : array2 pixel.
Variable cvtColor_gray : array2 pixel → outcome (array2 Z).
Variable match_locations : array2 Z → Z → outcome (list point).
Variable GaussianBlur : array2 Z → outcome (array2 Z).
Variable HoughCircles : array2 Z → outcome (option (list circle)).
Variable readtext : array2 pixel → outcome (list (box * string)).
Variable render : array2 Z → list point → list debug_entry → outcome unit.

Local Abbreviation verify := (verify_head_circle image GaussianBlur HoughCircles).
Local Abbreviation extract := (extract_text_below image readtext).
Local Abbreviation confirmed := (head_confirmed image GaussianBlur HoughCircles).
Local Abbreviation loop := (verify_loop image GaussianBlur HoughCircles readtext).
Local Abbreviation run :=
  (detect_actors image cvtColor_gray match_locations GaussianBlur HoughCircles readtext render).

(** Head verification never calls text recognition. *)
Lemma verify_head_circle_no_readtext (binary : array2 Z) (actor_pos : point)
    (search_height search_width : Z) :
  readtext_calls (verify binary actor_pos search_height search_width).2 = [].
Proof.
  destruct actor_pos as [x y]. unfold verify_head_circle, bind, call, ret.
  repeat case_match; simplify_eq; reflexivity.
Qed.

Lemma match_sizes_no_readtext (binary : array2 Z) (sizes : list Z) :
  ∀ actors0 : list point,
    readtext_calls (match_sizes (pixel:=pixel) match_locations binary sizes actors0).2 = [].
Proof.
  induction sizes as [| size sizes IH]; intros actors0; [done |].
  simpl. unfold bind, call.
  destruct (match_locations binary size) as [locs | e]; [| done].
  specialize (IH (keep_far 15 actors0 (center size <$> locs))).
  destruct (match_sizes _ _ _ _) as [r log']. done.
Qed.

(** The loop of [detect_actors]: what it adds to its three lists, and
    which text-recognition calls it makes. *)
Lemma verify_loop_spec (binary : array2 Z) (actors : list point) :
  ∀ (idx : Z) (verified : list point) (debug_info : list debug_entry)
    (text_results : list record) (verified' : list point)
    (debug_info' : list debug_entry) (text_results' : list record)
    (log : list (@event pixel)),
    loop binary idx actors verified debug_info text_results
    = (Ret (verified', debug_info', text_results'), log) →
    verified' = verified ++ List.filter (confirmed binary) actors
    ∧ text_results'
      = text_results
        ++ (raw_record image GaussianBlur HoughCircles readtext binary
              <$> enumerate (idx + 1) actors)
    ∧ readtext_calls log
      = flat_map (λ p, readtext_calls (extract p).2)
          (List.filter (confirmed binary) actors).
Proof.
  induction actors as [| p actors IH];
    intros idx verified debug_info text_results verified' debug_info' text_results' log Hrun.
  - injection Hrun as <- <- <- <-. by rewrite !app_nil_r.
  - simpl in Hrun.
    apply bind_Ret_inv in Hrun as ([[ok found] roi_box] & l1 & l2 & Hverify & Hrun & ->).
    pose proof (verify_head_circle_no_readtext binary p 35 50) as Hquiet.
    rewrite Hverify in Hquiet. simpl in Hquiet.
    unfold readtext_calls in *. rewrite omap_app, Hquiet. simpl.
    destruct ok.
    + apply bind_Ret_inv in Hrun as ([text text_roi] & l3 & l4 & Hextract & Hrun & ->).
      apply IH in Hrun as (-> & -> & Hcalls).
      assert (Hc : confirmed binary p = true)
        by (unfold head_confirmed; by rewrite Hverify).
      assert (Hcap : ocr_caption image readtext p = text)
        by (unfold ocr_caption; by rewrite Hextract).
      simpl. rewrite Hc, Hcap. simpl.
      rewrite Hextract, omap_app, Hcalls, <- !app_assoc. done.
    + apply IH in Hrun as (-> & -> & Hcalls).
      assert (Hc : confirmed binary p = false)
        by (unfold head_confirmed; by rewrite Hverify).
      simpl. rewrite Hc, Hcalls, <- !app_assoc. done.
Qed.

(** The stages that a returning run of [detect_actors] went through. *)
Lemma detect_actors_stages (n : Z) (final_actors : list point) (text_results : list record)
    (log : list (@event pixel)) :
  run = (Ret (n, final_actors, text_results), log) →
  ∃ (binary : array2 Z) (actors : list point) (l0 l1 : list (@event pixel)),
    preprocess image cvtColor_gray = (Ret binary, l0)
    ∧ find_actors_by_template match_locations binary = (Ret actors, l1)
    ∧ final_actors = remove_near_duplicates (List.filter (confirmed binary) actors)
    ∧ n = len final_actors
    ∧ text_results
      = (raw_record image GaussianBlur HoughCircles readtext binary <$> enumerate 1 actors)
    ∧ readtext_calls log
      = flat_map (λ p, readtext_calls (extract p).2)
          (List.filter (confirmed binary) actors).
Proof.
  unfold detect_actors. intros Hrun.
  apply bind_Ret_inv in Hrun as (binary & l0 & l0' & Hpre & Hrun & ->).
  apply bind_Ret_inv in Hrun as (actors & l1 & l1' & Hfind & Hrun & ->).
  apply bind_Ret_inv in Hrun
    as ([[verified debug_info] records] & l2 & l2' & Hloop & Hrun & ->).
  apply bind_Ret_inv in Hrun as ([] & l3 & l3' & Hdraw & Hrun & ->).
  injection Hrun as <- <- <- <-.
  apply verify_loop_spec in Hloop as (-> & -> & Hcalls).
  exists binary, actors, l0, l1. repeat split; try done.
  unfold readtext_calls in *. rewrite !omap_app, Hcalls.
  assert (Hl0 : l0 = [EvCvtColor]).
  { unfold preprocess, bind, call, ret in Hpre.
    destruct (cvtColor_gray image); by injection Hpre. }
  pose proof (match_sizes_no_readtext binary template_sizes []) as Hl1.
  unfold find_actors_by_template in Hfind. rewrite Hfind in Hl1.
  unfold readtext_calls in Hl1. simpl in Hl1. rewrite Hl1.
  injection Hdraw as _ <-. subst l0. simpl. by rewrite !app_nil_r.
Qed.

End Run.

Section Returns.

Context {pixel : Type}.
Variable image : array2 pixel.
Variable cvtColor_gray : array2 pixel → outcome (array2 Z).
Variable match_locations : array2 Z → Z → outcome (list point).
Variable GaussianBlur : array2 Z → outcome (array2 Z).
Variable HoughCircles : array2 Z → outcome (option (list circle)).
Variable readtext : array2 pixel → outcome (list (box * string)).
Variable render : array2 Z → list point → list debug_entry → outcome unit.

Hypothesis cvtColor_returns : never_raises cvtColor_gray.
Hypothesis match_returns : ∀ binary, never_raises (match_locations binary).
Hypothesis blur_returns : never_raises GaussianBlur.
Hypothesis hough_returns : never_raises HoughCircles.
Hypothesis readtext_returns : never_raises readtext.
Hypothesis render_returns : ∀ binary actors, never_raises (render binary actors).

Lemma verify_head_circle_returns (binary : array2 Z) (actor_pos : point)
    (search_height search_width : Z) :
  ∃ r (log : list (@event pixel)),
    verify_head_circle image GaussianBlur HoughCircles binary actor_pos
      search_height search_width = (Ret r, log).
Proof.
  destruct actor_pos as [x y]. unfold verify_head_circle.
  destruct (Nat.eqb _ 0); [by eexists _, _ |].
  set (roi := crop _ _ _ _ _).
  destruct (blur_returns roi) as [roi_blur Hblur].
  destruct (hough_returns roi_blur) as [circles Hhough].
  unfold bind, call, ret. rewrite Hblur, Hhough.
  destruct circles as [circles |]; [| by eexists _, _].
  destruct (List.filter _ _); by eexists _, _.
Qed.

Lemma extract_text_below_returns (actor_pos : point) :
  ∃ r (log : list (@event pixel)),
    extract_text_below image readtext actor_pos = (Ret r, log).
Proof.
  destruct actor_pos as [x y]. unfold extract_text_below.
  destruct (Nat.eqb _ 0); [by eexists _, _ |].
  set (roi := crop _ _ _ _ _).
  destruct (readtext_returns roi) as [spans Hspans].
  unfold bind, call, ret. rewrite Hspans. by eexists _, _.
Qed.

Lemma verify_loop_returns (binary : array2 Z) (actors : list point) :
  ∀ (idx : Z) (verified : list point) (debug_info : list debug_entry)
    (text_results : list record),
    ∃ r (log : list (@event pixel)),
      verify_loop image GaussianBlur HoughCircles readtext binary idx actors
        verified debug_info text_results = (Ret r, log).
Proof.
  induction actors as [| p actors IH]; intros idx verified debug_info text_results.
  - by eexists _, _.
  - simpl.
    destruct (verify_head_circle_returns binary p 35 50) as ([[ok found] roi_box] & l1 & Hv).
    destruct ok.
    + destruct (extract_text_below_returns p) as ([text text_roi] & l2 & Hx).
      edestruct IH as (r & l3 & Hrest).
      eexists _, _. eapply bind_Ret; [exact Hv |]. simpl.
      eapply bind_Ret; [exact Hx |]. exact Hrest.
    + edestruct IH as (r & l3 & Hrest).
      eexists _, _. eapply bind_Ret; [exact Hv |]. exact Hrest.
Qed.

Lemma match_sizes_returns (binary : array2 Z) (sizes : list Z) :
  ∀ actors0 : list point,
    ∃ r (log : list (@event pixel)),
      match_sizes match_locations binary sizes actors0 = (Ret r, log).
Proof.
  induction sizes as [| size sizes IH]; intros actors0.
  - by eexists _, _.
  - simpl. destruct (match_returns binary size) as [locs Hlocs].
    edestruct IH as (r & l & Hrest).
    eexists _, _. eapply bind_Ret; [unfold call; by rewrite Hlocs |]. exact Hrest.
Qed.

(** When no external call raises, [detect_actors] returns. *)
Lemma detect_actors_returns :
  ∃ r (log : list (@event pixel)),
    detect_actors image cvtColor_gray match_locations GaussianBlur HoughCircles
      readtext render = (Ret r, log).
Proof.
  unfold detect_actors, preprocess.
  destruct (cvtColor_returns image) as [gray Hgray].
  destruct (match_sizes_returns (binarize gray) template_sizes []) as (actors & l1 & Hfind).
  destruct (verify_loop_returns (binarize gray) actors 0 [] [] [])
    as ([[verified debug_info] records] & l2 & Hloop).
  destruct (render_returns (binarize gray) (remove_near_duplicates verified) debug_info)
    as [[] Hdraw].
  eexists _, _.
  eapply bind_Ret.
  { eapply bind_Ret; [unfold call; by rewrite Hgray | reflexivity]. }
  eapply bind_Ret; [exact Hfind |].
  eapply bind_Ret; [exact Hloop |]. simpl.
  eapply bind_Ret; [unfold draw_results, call; by rewrite Hdraw | reflexivity].
Qed.

End Returns.

Section RunClaims.

Context {pixel : Type}.
Variable image : array2 pixel.
Variable cvtColor_gray : array2 pixel → outcome (array2 Z).
Variable match_locations : array2 Z → Z → outcome (list point).
Variable GaussianBlur : array2 Z → outcome (array2 Z).
Variable HoughCircles : array2 Z → outcome (option (list circle)).
Variable readtext : array2 pixel → outcome (list (box * string)).
Variable render : array2 Z → list point → list debug_entry → outcome unit.

Local Abbreviation extract := (extract_text_below image readtext).
Local Abbreviation confirmed := (head_confirmed image GaussianBlur HoughCircles).
Local Abbreviation run :=
  (detect_actors image cvtColor_gray match_locations GaussianBlur HoughCircles readtext render).

(** C2. In every run of [detect_actors] that returns, each final
    position is a template candidate that head verification confirmed,
    and two distinct final positions are strictly more than 25 px
    apart. *)
Theorem final_positions_confirmed_and_apart (n : Z) (final_actors : list point)
    (text_results : list record) (log : list (@event pixel)) :
  run = (Ret (n, final_actors, text_results), log) →
  ∃ (binary : array2 Z) (actors : list point) (l0 l1 : list (@event pixel)),
    preprocess image cvtColor_gray = (Ret binary, l0)
    ∧ find_actors_by_template match_locations binary = (Ret actors, l1)
    ∧ (∀ p : point, p ∈ final_actors → p ∈ actors ∧ confirmed binary p = true)
    ∧ (∀ (i j : nat) (a b : point),
          i ≠ j → final_actors !! i = Some a → final_actors !! j = Some b →
          25 * 25 < dist_sq a b).
Proof.
  intros Hrun.
  apply detect_actors_stages in Hrun
    as (binary & actors & l0 & l1 & Hpre & Hfind & -> & _ & _ & _).
  exists binary, actors, l0, l1. split; [done |]. split; [done |]. split.
  - intros p Hp. apply keep_far_subset in Hp.
    apply list_elem_of_In, filter_In in Hp as [Hp Hc].
    split; [by apply list_elem_of_In | done].
  - intros i j a b Hne Hi Hj. apply Z.ltb_lt.
    change (25 * 25 <? dist_sq a b) with (dist_gt 25 a b).
    eapply separated_distinct; [| done..].
    apply keep_far_separated, separated_nil.
Qed.

(** C10. In every run of [detect_actors] that returns, the record list
    has one (id, caption) pair per template candidate, with ids 1, 2, ...
    in detection order; a candidate that failed head verification gets
    the empty caption, and text recognition is called only from the
    caption extraction of confirmed candidates; the final count does not
    exceed the number of records. *)
Theorem raw_records_cover_all_candidates (n : Z) (final_actors : list point)
    (text_results : list record) (log : list (@event pixel)) :
  run = (Ret (n, final_actors, text_results), log) →
  ∃ (binary : array2 Z) (actors : list point) (l0 l1 : list (@event pixel)),
    preprocess image cvtColor_gray = (Ret binary, l0)
    ∧ find_actors_by_template match_locations binary = (Ret actors, l1)
    ∧ length text_results = length actors
    ∧ (∀ (i : nat) (p : point),
          actors !! i = Some p →
          ∃ caption : string,
            text_results !! i = Some (Z.of_nat i + 1, caption)
            ∧ (confirmed binary p = false → caption = EmptyString))
    ∧ readtext_calls log
      = flat_map (λ p, readtext_calls (extract p).2)
          (List.filter (confirmed binary) actors)
    ∧ n ≤ len text_results.
Proof.
  intros Hrun.
  apply detect_actors_stages in Hrun
    as (binary & actors & l0 & l1 & Hpre & Hfind & -> & -> & -> & Hcalls).
  exists binary, actors, l0, l1. split; [done |]. split; [done |].
  split; [by rewrite length_fmap, enumerate_length |].
  split; [| split; [done |]].
  - intros i p Hi.
    exists (if confirmed binary p then ocr_caption image readtext p else EmptyString).
    split.
    + rewrite list_lookup_fmap, (enumerate_lookup actors 1 i p Hi). simpl.
      by replace (1 + Z.of_nat i) with (Z.of_nat i + 1) by lia.
    + by intros ->.
  - unfold len, remove_near_duplicates.
    rewrite length_fmap, enumerate_length.
    pose proof (keep_far_length 25 (List.filter (confirmed binary) actors) []) as Hlen.
    pose proof (filter_length_le (confirmed binary) actors). simpl in Hlen. lia.
Qed.

(** C1, as the code has it. The record list is built from all template
    candidates before the 25 px duplicate removal, numbered from 1 in
    detection order; every retained position has its record in it, at
    its detection index and with the caption read for it. *)
Theorem raw_records_numbered_before_dedup (n : Z) (final_actors : list point)
    (text_results : list record) (log : list (@event pixel)) :
  run = (Ret (n, final_actors, text_results), log) →
  ∃ (binary : array2 Z) (actors : list point) (l0 l1 : list (@event pixel)),
    preprocess image cvtColor_gray = (Ret binary, l0)
    ∧ find_actors_by_template match_locations binary = (Ret actors, l1)
    ∧ text_results
      = (raw_record image GaussianBlur HoughCircles readtext binary <$> enumerate 1 actors)
    ∧ (∀ p : point,
          p ∈ final_actors →
          ∃ i : nat,
            actors !! i = Some p
            ∧ text_results !! i = Some (Z.of_nat i + 1, ocr_caption image readtext p)).
Proof.
  intros Hrun.
  apply detect_actors_stages in Hrun
    as (binary & actors & l0 & l1 & Hpre & Hfind & -> & _ & -> & _).
  exists binary, actors, l0, l1. split; [done |]. split; [done |]. split; [done |].
  intros p Hp. apply keep_far_subset in Hp.
  apply list_elem_of_In, filter_In in Hp as [Hp Hc].
  apply list_elem_of_In, list_elem_of_lookup in Hp as [i Hi].
  exists i. split; [done |].
  rewrite list_lookup_fmap, (enumerate_lookup actors 1 i p Hi). simpl.
  rewrite Hc. by replace (1 + Z.of_nat i) with (Z.of_nat i + 1) by lia.
Qed.

End RunClaims.

Lemma final_positions_confirmed_and_apart_witness :
  25 * 25 < dist_sq (50, 50) (120, 50).
Proof.
  destruct (final_positions_confirmed_and_apart Scenario.sheet Scenario.gray_of
              Scenario.locations Scenario.blur Scenario.hough Scenario.ocr Scenario.overlay
              2 Scenario.final_positions Scenario.raw_records Scenario.run.2)
    as (binary & actors & l0 & l1 & _ & _ & _ & Hfar).
  - vm_compute. reflexivity.
  - apply (Hfar 0%nat 1%nat); [lia | reflexivity | reflexivity].
Defined.

Lemma raw_records_cover_all_candidates_witness :
  ∃ actors : list point,
    length Scenario.raw_records = length actors ∧ 2 ≤ len Scenario.raw_records.
Proof.
  destruct (raw_records_cover_all_candidates Scenario.sheet Scenario.gray_of
              Scenario.locations Scenario.blur Scenario.hough Scenario.ocr Scenario.overlay
              2 Scenario.final_positions Scenario.raw_records Scenario.run.2)
    as (binary & actors & l0 & l1 & _ & _ & Hlen & _ & _ & Hcount).
  - vm_compute. reflexivity.
  - exists actors. split; assumption.
Defined.

Lemma raw_records_numbered_before_dedup_witness :
  ∃ (actors : list point) (i : nat),
    actors !! i = Some (120, 50)
    ∧ Scenario.raw_records !! i
      = Some (Z.of_nat i + 1, ocr_caption Scenario.sheet Scenario.ocr (120, 50)).
Proof.
  destruct (raw_records_numbered_before_dedup Scenario.sheet Scenario.gray_of
              Scenario.locations Scenario.blur Scenario.hough Scenario.ocr Scenario.overlay
              2 Scenario.final_positions Scenario.raw_records Scenario.run.2)
    as (binary & actors & l0 & l1 & _ & _ & _ & Hfinal).
  - vm_compute. reflexivity.
  - destruct (Hfinal (120, 50)) as (i & Hi & Hrec).
    + unfold Scenario.final_positions. right. left.
    + by exists actors, i.
Defined.

(** C1, as the specification states it, fails: on the worked sheet the
    run retains two positions and returns four records, one per template
    candidate, so the records are not the retained candidates numbered in
    retention order. *)
Lemma raw_records_of_retained_counterexample :
  Scenario.run
  = (Ret (2, Scenario.final_positions, Scenario.raw_records), Scenario.run.2)
  ∧ length Scenario.raw_records ≠ length Scenario.final_positions
  ∧ Scenario.raw_records
    ≠ records_of_retained Scenario.sheet Scenario.ocr Scenario.final_positions.
Proof.
  split; [vm_compute; reflexivity |].
  split; [vm_compute; lia |].
  intros Heq. vm_compute in Heq. discriminate.
Qed.

(** * Further properties of the code *)

(** ** The greedy passes *)

Lemma forallb_false_elem {A} (f : A → bool) (l : list A) :
  forallb f l = false → ∃ b, b ∈ l ∧ f b = false.
Proof.
  induction l as [| x l IH]; simpl; [done |].
  destruct (f x) eqn:Hx; simpl.
  - intros H. destruct (IH H) as (b & Hb & Hfb). exists b. split; [by right | done].
  - intros _. exists x. split; [by left | done].
Qed.

Lemma dist_sq_refl (a : point) : dist_sq a a = 0.
Proof. unfold dist_sq. ring. Qed.

Lemma keep_far_sublist (d : Z) (l : list point) :
  ∀ acc, ∃ k, keep_far d acc l = acc ++ k ∧ k `sublist_of` l.
Proof.
  induction l as [| a l IH]; intros acc; simpl.
  - exists []. split; [by rewrite app_nil_r | constructor].
  - unfold append_if_far. destruct (forallb (dist_gt d a) acc).
    + destruct (IH (acc ++ [a])) as (k & -> & Hk).
      exists (a :: k). rewrite <- app_assoc. split; [done | by constructor].
    + destruct (IH acc) as (k & -> & Hk).
      exists k. split; [done | by constructor].
Qed.

Lemma keep_far_covers (d : Z) (l : list point) :
  ∀ (acc : list point) (a : point),
    a ∈ acc ∨ a ∈ l → ∃ b, b ∈ keep_far d acc l ∧ dist_sq a b ≤ d * d.
Proof.
  induction l as [| x l IH]; intros acc a [Ha | Ha]; simpl.
  - exists a. split; [done |]. rewrite dist_sq_refl. nia.
  - by apply elem_of_nil in Ha.
  - apply IH. left. unfold append_if_far.
    destruct (forallb _ acc); [apply elem_of_app; by left | done].
  - apply elem_of_cons in Ha as [-> | Ha]; [| apply IH; by right].
    unfold append_if_far. destruct (forallb (dist_gt d x) acc) eqn:Hall.
    + apply IH. left. apply elem_of_app. right. by left.
    + apply forallb_false_elem in Hall as (b & Hb & Hnear).
      destruct (keep_far_sublist d l acc) as (k & -> & _).
      exists b. split; [apply elem_of_app; by left |].
      unfold dist_gt in Hnear. by apply Z.ltb_ge in Hnear.
Qed.

(** X1. The duplicate removal only drops entries: what it returns is the
    input with some entries left out, in the same order. *)
Theorem remove_near_duplicates_sublist (verified : list point) :
  remove_near_duplicates verified `sublist_of` verified.
Proof.
  unfold remove_near_duplicates.
  by destruct (keep_far_sublist 25 verified []) as (k & -> & Hk).
Qed.

(** X2. Every confirmed position is represented after the duplicate
    removal: it is retained, or a retained position lies within 25 px. *)
Theorem remove_near_duplicates_covers (verified : list point) (a : point) :
  a ∈ verified →
  ∃ b, b ∈ remove_near_duplicates verified ∧ dist_sq a b ≤ 25 * 25.
Proof. intros Ha. apply keep_far_covers. by right. Qed.

Lemma remove_near_duplicates_covers_witness :
  ∃ b, b ∈ remove_near_duplicates [(50, 50); (70, 50); (120, 50)]
       ∧ dist_sq (70, 50) b ≤ 25 * 25.
Proof.
  apply remove_near_duplicates_covers. right. left.
Defined.

(** X3. The first confirmed position always survives the duplicate
    removal; the rest of the result is taken from the rest of the input. *)
Theorem remove_near_duplicates_keeps_first (a : point) (l : list point) :
  ∃ k, remove_near_duplicates (a :: l) = a :: k ∧ k `sublist_of` l.
Proof.
  unfold remove_near_duplicates. simpl.
  destruct (keep_far_sublist 25 l [a]) as (k & Hk & Hsub).
  exists k. unfold append_if_far. simpl. split; [exact Hk | exact Hsub].
Qed.

(** X4. The duplicate removal returns its input unchanged exactly when
    every entry is more than 25 px away from all entries before it. *)
Theorem remove_near_duplicates_unchanged_iff (verified : list point) :
  remove_near_duplicates verified = verified ↔ separated 25 verified.
Proof.
  unfold remove_near_duplicates. split.
  - intros <-. apply keep_far_separated, separated_nil.
  - intros Hsep. by apply (keep_far_fixed 25 verified []).
Qed.

Section MatcherCoverage.

Context {pixel : Type}.
Variable match_locations : array2 Z → Z → outcome (list point).

Lemma match_sizes_log (binary : array2 Z) (sizes : list Z) :
  ∀ (actors0 actors : list point) (log : list (@event pixel)),
    match_sizes match_locations binary sizes actors0 = (Ret actors, log) →
    log = EvMatchTemplate <$> sizes.
Proof.
  induction sizes as [| size sizes IH]; intros actors0 actors log Hrun.
  - by injection Hrun as <- <-.
  - simpl in Hrun. apply bind_Ret_inv in Hrun as (l & l1 & l2 & Hcall & Hrest & ->).
    injection Hcall as _ <-. apply IH in Hrest as ->. done.
Qed.

(** X5. The candidates of the template matcher are response centres, in
    the order in which the responses were visited, and every response
    centre has a candidate within 15 px; a returning call has tried the
    five template sizes once each, in increasing order. *)
Theorem template_candidates_cover_responses (binary : array2 Z) (actors : list point)
    (log : list (@event pixel)) :
  find_actors_by_template match_locations binary = (Ret actors, log) →
  ∃ locs : list (list point),
    Forall2 (λ size l, match_locations binary size = Ret l) [40; 50; 60; 70; 80] locs
    ∧ actors `sublist_of` all_centers [40; 50; 60; 70; 80] locs
    ∧ (∀ c : point,
          c ∈ all_centers [40; 50; 60; 70; 80] locs →
          ∃ a, a ∈ actors ∧ dist_sq c a ≤ 15 * 15)
    ∧ log = [EvMatchTemplate 40; EvMatchTemplate 50; EvMatchTemplate 60;
             EvMatchTemplate 70; EvMatchTemplate 80].
Proof.
  intros Hrun. unfold find_actors_by_template in Hrun.
  pose proof (match_sizes_log _ _ _ _ _ Hrun) as Hlog.
  apply match_sizes_greedy in Hrun as (locs & Hlocs & ->).
  exists locs. split; [done |]. split; [| split; [| done]].
  - by destruct (keep_far_sublist 15 (all_centers template_sizes locs) [])
      as (k & -> & Hk).
  - intros c Hc. apply keep_far_covers. by right.
Qed.

End MatcherCoverage.

Lemma remove_near_duplicates_unchanged_iff_witness :
  remove_near_duplicates [(50, 50); (120, 50)] = [(50, 50); (120, 50)]
  ∧ ¬ separated 25 [(50, 50); (70, 50)].
Proof.
  split.
  - apply remove_near_duplicates_unchanged_iff.
    intros [| [| i]] [| [| j]] a b Hij Hi Hj; simpl in *; simplify_eq; (lia || reflexivity).
  - intros Hsep. apply remove_near_duplicates_unchanged_iff in Hsep.
    vm_compute in Hsep. discriminate.
Defined.

Lemma template_candidates_cover_responses_witness :
  ∃ locs : list (list point),
    Forall2 (λ size l, Scenario.locations Scenario.sheet size = Ret l)
      [40; 50; 60; 70; 80] locs
    ∧ [(50, 50); (70, 50); (120, 50); (50, 100)]
        `sublist_of` all_centers [40; 50; 60; 70; 80] locs.
Proof.
  destruct (template_candidates_cover_responses (pixel:=Z) Scenario.locations Scenario.sheet
              [(50, 50); (70, 50); (120, 50); (50, 100)]
              [EvMatchTemplate 40; EvMatchTemplate 50; EvMatchTemplate 60;
               EvMatchTemplate 70; EvMatchTemplate 80])
    as (locs & Hlocs & Hsub & _).
  - vm_compute. reflexivity.
  - exists locs. split; assumption.
Defined.

(** ** Binarization *)

Lemma threshold_binary_valued (a : array2 Z) : binary_valued (threshold_binary 50 255 a).
Proof.
  unfold binary_valued, threshold_binary.
  apply Forall_fmap, Forall_true. intros row. simpl.
  apply Forall_fmap, Forall_true. intros v. simpl.
  destruct (50 <? v); auto.
Qed.

Lemma invert_shape (a : array2 Z) : Forall2 (λ r r' : list Z, length r = length r') (invert a) a.
Proof.
  unfold invert. induction a as [| row a IH]; [constructor |].
  rewrite fmap_cons. constructor; [by rewrite length_fmap | done].
Qed.

Lemma threshold_binary_shape (t m : Z) (a : array2 Z) :
  Forall2 (λ r r' : list Z, length r = length r') (threshold_binary t m a) a.
Proof.
  unfold threshold_binary. induction a as [| row a IH]; [constructor |].
  rewrite fmap_cons. constructor; [by rewrite length_fmap | done].
Qed.

(** X6. Whatever the grey image, the mask that [preprocess] computes from
    it has only the values 0 and 255, and it has the shape of the image:
    as many rows, each as long as the row it comes from. *)
Theorem binarize_is_mask (gray : array2 Z) :
  binary_valued (binarize gray)
  ∧ Forall2 (λ r r' : list Z, length r = length r') (binarize gray) gray.
Proof.
  unfold binarize. split; [apply threshold_binary_valued |].
  destruct (mean_gt gray 127).
  - eapply Forall2_trans; [| apply threshold_binary_shape | apply invert_shape].
    intros r1 r2 r3. congruence.
  - apply threshold_binary_shape.
Qed.

Lemma foldr_add_shift (l : list Z) (z : Z) : foldr Z.add z l = foldr Z.add 0 l + z.
Proof. induction l as [| v l IH]; simpl; [lia |]. rewrite IH. lia. Qed.

Lemma total_row_invert (row : list Z) :
  foldr Z.add 0 ((λ v, 255 - v) <$> row) = 255 * Z.of_nat (length row) - foldr Z.add 0 row.
Proof.
  induction row as [| v row IH]; [done |].
  rewrite fmap_cons. cbn [foldr length]. rewrite IH. lia.
Qed.

Lemma total_invert (a : array2 Z) : total (invert a) = 255 * count a - total a.
Proof.
  unfold total, count, invert. induction a as [| row a IH]; [done |].
  rewrite fmap_cons. cbn [concat]. rewrite !foldr_app, !length_app.
  rewrite (foldr_add_shift ((λ v, 255 - v) <$> row)), (foldr_add_shift row).
  rewrite total_row_invert, IH. lia.
Qed.

Lemma count_invert (a : array2 Z) : count (invert a) = count a.
Proof.
  unfold count, invert. f_equal. induction a as [| row a IH]; [done |].
  rewrite fmap_cons. simpl. by rewrite !length_app, length_fmap, IH.
Qed.

Lemma invert_invert (a : array2 Z) : invert (invert a) = a.
Proof.
  unfold invert. induction a as [| row a IH]; [done |].
  rewrite !fmap_cons, IH. f_equal.
  induction row as [| v row IHrow]; [done |].
  rewrite !fmap_cons, IHrow. f_equal. lia.
Qed.

Lemma invert_no_pixels (a : array2 Z) : concat a = [] → invert a = a.
Proof.
  unfold invert. induction a as [| row a IH]; [done |].
  cbn [concat]. intros Hnil. apply app_eq_nil in Hnil as [-> Hnil].
  by rewrite fmap_cons, IH.
Qed.

(** X7. Polarity normalisation: a grey image and its negative
    [255 - gray] are binarized to the same mask, provided the mean of the
    image is not strictly between 127 and 128. *)
Theorem binarize_negative (gray : array2 Z) :
  total gray ≤ 127 * count gray ∨ 128 * count gray ≤ total gray →
  binarize (invert gray) = binarize gray.
Proof.
  intros Hmean. unfold binarize, mean_gt.
  rewrite total_invert, count_invert, invert_invert.
  destruct Hmean as [Hdark | Hlight].
  - destruct (Z.ltb_spec (127 * count gray) (total gray)) as [? | _]; [lia |].
    destruct (Z.ltb_spec (127 * count gray) (255 * count gray - total gray)) as [_ | Hle];
      [done |].
    rewrite invert_no_pixels; [done |].
    apply length_zero_iff_nil. unfold count in *. lia.
  - destruct (Z.ltb_spec (127 * count gray) (255 * count gray - total gray)) as [? | _];
      [lia |].
    destruct (Z.ltb_spec (127 * count gray) (total gray)) as [_ | Hle]; [done |].
    rewrite invert_no_pixels; [done |].
    apply length_zero_iff_nil. unfold count in *. lia.
Qed.

Lemma binarize_negative_witness :
  binarize (invert [[250; 240; 10]; [255; 200; 30]]) = binarize [[250; 240; 10]; [255; 200; 30]].
Proof. apply binarize_negative. right. vm_compute. discriminate. Defined.

(** ** Stripping *)

Module PyStrFacts.

Import PyStr.

Lemma list_of_append (s t : string) :
  list_ascii_of_string (String.append s t) = list_ascii_of_string s ++ list_ascii_of_string t.
Proof. induction s as [| c s IH]; simpl; [done |]. by rewrite IH. Qed.

Lemma string_of_app (l k : list ascii) :
  string_of_list_ascii (l ++ k)
  = String.append (string_of_list_ascii l) (string_of_list_ascii k).
Proof. induction l as [| c l IH]; simpl; [done |]. by rewrite IH. Qed.

Lemma reverse_cons (c : ascii) (s : string) :
  reverse (String c s) = String.append (reverse s) (String c EmptyString).
Proof. unfold reverse. simpl. by rewrite string_of_app. Qed.

Lemma reverse_snoc (w : string) (c : ascii) :
  reverse (String.append w (String c EmptyString)) = String c (reverse w).
Proof. unfold reverse. rewrite list_of_append. simpl. by rewrite rev_unit. Qed.

Lemma reverse_involutive (s : string) : reverse (reverse s) = s.
Proof.
  unfold reverse. rewrite list_ascii_of_string_of_list_ascii, rev_involutive.
  apply string_of_list_ascii_of_string.
Qed.

Lemma lstrip_idem (s : string) : lstrip (lstrip s) = lstrip s.
Proof.
  induction s as [| c s IH]; simpl; [done |].
  destruct (isspace c) eqn:Hc; [done |]. simpl. by rewrite Hc.
Qed.

Lemma lstrip_head (s : string) :
  lstrip s = EmptyString ∨ ∃ c t, lstrip s = String c t ∧ isspace c = false.
Proof.
  induction s as [| c s IH]; simpl; [by left |].
  destruct (isspace c) eqn:Hc; [done |]. right. by exists c, s.
Qed.

Lemma lstrip_snoc (s : string) (c : ascii) :
  isspace c = false →
  ∃ w, lstrip (String.append s (String c EmptyString)) = String.append w (String c EmptyString).
Proof.
  intros Hc. induction s as [| x s IH]; simpl.
  - rewrite Hc. by exists EmptyString.
  - destruct (isspace x); [done |]. by exists (String x s).
Qed.

Lemma rstrip_head (c : ascii) (t : string) :
  isspace c = false → ∃ u, rstrip (String c t) = String c u.
Proof.
  intros Hc. unfold rstrip. rewrite reverse_cons.
  destruct (lstrip_snoc (reverse t) c Hc) as [w ->].
  rewrite reverse_snoc. by exists (reverse w).
Qed.

Lemma rstrip_idem (s : string) : rstrip (rstrip s) = rstrip s.
Proof. unfold rstrip. by rewrite reverse_involutive, lstrip_idem. Qed.

(** After [strip] there is nothing left to strip, on either side. *)
Lemma strip_stripped (s : string) :
  lstrip (strip s) = strip s ∧ rstrip (strip s) = strip s.
Proof.
  unfold strip. split; [| apply rstrip_idem].
  destruct (lstrip_head s) as [-> | (c & t & -> & Hc)]; [done |].
  destruct (rstrip_head c t Hc) as [u ->]. simpl. by rewrite Hc.
Qed.

Lemma strip_idem (s : string) : strip (strip s) = strip s.
Proof.
  destruct (strip_stripped s) as [Hl Hr]. unfold strip at 1. by rewrite Hl, Hr.
Qed.

Lemma truthy_strip (s : string) : truthy (strip s) = true → truthy s = true.
Proof. by destruct s. Qed.

End PyStrFacts.

(** ** Head verification *)

Lemma min_from_elem {A} (key : A → Z) (best : A) (l : list A) :
  min_from key best l ∈ best :: l.
Proof.
  destruct (min_from_first_least key l best) as (before & after & -> & _).
  apply elem_of_app. right. by left.
Qed.

Lemma uint16_range (v : Z) : 0 ≤ uint16 v < 65536.
Proof. unfold uint16. apply Z.mod_pos_bound. lia. Qed.

Lemma circles_abs_elem (x1 y1 : Z) (circles : list circle) (c : circle) :
  c ∈ circles_abs x1 y1 circles →
  x1 ≤ c.1.1 < x1 + 65536 ∧ y1 ≤ c.1.2 < y1 + 65536 ∧ 0 ≤ c.2 < 65536.
Proof.
  unfold circles_abs. intros Hc.
  apply list_elem_of_fmap in Hc as ([[cx cy] r] & -> & Hc).
  apply list_elem_of_fmap in Hc as ([[cx0 cy0] r0] & [= -> -> ->] & _).
  simpl. pose proof (uint16_range cx0). pose proof (uint16_range cy0).
  pose proof (uint16_range r0). lia.
Qed.

Section HeadVerifierMore.

Context {pixel : Type}.
Variable image : array2 pixel.
Variable GaussianBlur : array2 Z → outcome (array2 Z).
Variable HoughCircles : array2 Z → outcome (option (list circle)).

Local Abbreviation verify := (verify_head_circle image GaussianBlur HoughCircles).

(** X8. Whenever [verify_head_circle] returns, its third component is the
    clipped search box, and its flag is true exactly when it returns a
    circle. *)
Theorem verify_head_circle_result (binary : array2 Z) (x y search_height search_width : Z)
    (ok : bool) (found : option circle) (roi_box : box) (log : list (@event pixel)) :
  verify binary (x, y) search_height search_width = (Ret (ok, found, roi_box), log) →
  roi_box = (Z.max 0 (x - search_width `div` 2), Z.max 0 (y - search_height),
             Z.min (width image) (x + search_width `div` 2), y)
  ∧ (ok = true ↔ is_Some found).
Proof.
  unfold verify_head_circle, bind, call, ret. intros Hrun.
  repeat case_match; simplify_eq; (split; [done |]);
    split; (done || (by intros [? ?]) || eauto).
Qed.

(** The external calls of [Detector.verify_head_circle], whatever its
    outcome: none, or the blur of the search region, which is then not
    empty, followed if the blur returned by one circle search on the
    blurred region. *)
Lemma verify_head_circle_calls (binary : array2 Z) (x y search_height search_width : Z)
    (r : outcome (bool * option circle * box)) (log : list (@event pixel)) :
  verify binary (x, y) search_height search_width = (r, log) →
  ∃ roi : array2 Z,
    roi = crop binary (Z.max 0 (y - search_height)) y
            (Z.max 0 (x - search_width `div` 2))
            (Z.min (width image) (x + search_width `div` 2))
    ∧ (log = []
       ∨ size roi ≠ 0%nat
         ∧ ((∃ e, GaussianBlur roi = Raise e ∧ r = Raise e ∧ log = [EvGaussianBlur roi])
            ∨ ∃ roi_blur,
                GaussianBlur roi = Ret roi_blur
                ∧ log = [EvGaussianBlur roi; EvHoughCircles roi_blur])).
Proof.
  unfold verify_head_circle. intros Hrun. eexists. split; [reflexivity |].
  set (roi := crop _ _ _ _ _) in *.
  destruct (Nat.eqb_spec (size roi) 0) as [Hempty | Hsize].
  - left. by injection Hrun.
  - right. split; [done |]. unfold bind, call, ret in Hrun.
    destruct (GaussianBlur roi) as [roi_blur | e] eqn:Hblur.
    + right. exists roi_blur. split; [done |].
      repeat case_match; simplify_eq; done.
    + left. exists e. by simplify_eq.
Qed.

(** X10. The search region of [verify_head_circle] for a candidate with
    non-negative coordinates covers the mask rows y - search_height ..
    y - 1 and the columns x - search_width//2 .. x + search_width//2 - 1,
    clipped to the mask and to the image width; it has at most
    search_height rows. *)
Theorem head_roi_window (binary : array2 Z) (x y search_height search_width : Z)
    (r : outcome (bool * option circle * box)) (roi : array2 Z) (log : list (@event pixel)) :
  0 ≤ x →
  0 ≤ y →
  0 ≤ search_height →
  0 ≤ search_width →
  verify binary (x, y) search_height search_width = (r, log) →
  EvGaussianBlur roi ∈ log →
  (Z.of_nat (nrows roi) ≤ search_height)
  ∧ ∀ (i j : nat) (v : Z),
      at2 roi i j = Some v
      ↔ Z.max 0 (y - search_height) + Z.of_nat i < y
        ∧ Z.max 0 (x - search_width `div` 2) + Z.of_nat j < x + search_width `div` 2
        ∧ Z.max 0 (x - search_width `div` 2) + Z.of_nat j < width image
        ∧ at2 binary (Z.to_nat (Z.max 0 (y - search_height)) + i)
            (Z.to_nat (Z.max 0 (x - search_width `div` 2)) + j) = Some v.
Proof.
  intros Hx Hy Hsh Hsw Hrun Hin.
  assert (0 ≤ search_width `div` 2) by (apply Z.div_pos; lia).
  apply verify_head_circle_calls in Hrun as (roi0 & Hroi0 & Hlog).
  assert (roi = roi0) as ->.
  { destruct Hlog as [-> | (_ & [(e & _ & _ & ->) | (roi_blur & _ & ->)])].
    - by apply elem_of_nil in Hin.
    - apply list_elem_of_singleton in Hin. by injection Hin.
    - apply elem_of_cons in Hin as [Hin | Hin]; [by injection Hin |].
      apply list_elem_of_singleton in Hin. discriminate. }
  subst roi0. unfold width. split.
  - rewrite crop_nrows by lia. lia.
  - intros i j v. rewrite crop_window by lia. split.
    + intros (Hi & Hj & Hv). repeat split; (done || lia).
    + intros (Hi & Hj & Hw & Hv). repeat split; (done || lia).
Qed.

(** X11. The circle of a confirmed candidate is in image coordinates: its
    centre is at or below the top row of the search box and strictly
    above the candidate, at or to the right of the left edge of the box,
    and its radius is a [uint16] value. *)
Theorem head_circle_absolute (binary : array2 Z) (x y search_height search_width : Z)
    (cx cy radius : Z) (roi_box : box) (log : list (@event pixel)) :
  verify binary (x, y) search_height search_width
  = (Ret (true, Some (cx, cy, radius), roi_box), log) →
  Z.max 0 (y - search_height) ≤ cy < y
  ∧ Z.max 0 (x - search_width `div` 2) ≤ cx
  ∧ 0 ≤ cx
  ∧ 0 ≤ radius < 65536.
Proof.
  intros Hrun.
  apply verify_head_circle_confirmed in Hrun
    as (roi_blur & circles & c & rest & _ & _ & Hfilter & [= Hbest]).
  pose proof (min_from_elem (x_offset x) c rest) as Hin.
  rewrite <- Hbest, <- Hfilter in Hin.
  apply list_elem_of_In, filter_In in Hin as [Hin Hpass].
  apply list_elem_of_In, circles_abs_elem in Hin. simpl in Hin.
  simpl in Hpass. apply andb_true_iff in Hpass as [Hcy _]. apply Z.ltb_lt in Hcy.
  lia.
Qed.

End HeadVerifierMore.

Lemma verify_head_circle_result_witness :
  (45, 15, 95, 50)
  = (Z.max 0 (70 - 50 `div` 2), Z.max 0 (50 - 35),
     Z.min (width Scenario.sheet) (70 + 50 `div` 2), 50)
  ∧ (true = true ↔ is_Some (Some (70, 40, 8))).
Proof.
  apply (verify_head_circle_result Scenario.sheet Scenario.blur Scenario.hough
           Scenario.sheet 70 50 35 50 true (Some (70, 40, 8)) (45, 15, 95, 50)
           [EvGaussianBlur (crop Scenario.sheet 15 50 45 95);
            EvHoughCircles (crop Scenario.sheet 15 50 45 95)]).
  vm_compute. reflexivity.
Defined.

Lemma head_roi_window_witness :
  Z.of_nat (nrows (crop Scenario.sheet 15 50 45 95)) ≤ 35.
Proof.
  apply (head_roi_window Scenario.sheet Scenario.blur Scenario.hough Scenario.sheet
           70 50 35 50
           (Ret (true, Some (70, 40, 8), (45, 15, 95, 50)))
           (crop Scenario.sheet 15 50 45 95)
           [EvGaussianBlur (crop Scenario.sheet 15 50 45 95);
            EvHoughCircles (crop Scenario.sheet 15 50 45 95)]);
    [lia | lia | lia | lia | vm_compute; reflexivity | by left].
Defined.

Lemma head_circle_absolute_witness :
  Z.max 0 (50 - 35) ≤ 40 < 50 ∧ Z.max 0 (70 - 50 `div` 2) ≤ 70 ∧ 0 ≤ 70 ∧ 0 ≤ 8 < 65536.
Proof.
  apply (head_circle_absolute Scenario.sheet Scenario.blur Scenario.hough Scenario.sheet
           70 50 35 50 70 40 8 (45, 15, 95, 50)
           [EvGaussianBlur (crop Scenario.sheet 15 50 45 95);
            EvHoughCircles (crop Scenario.sheet 15 50 45 95)]).
  vm_compute. reflexivity.
Defined.

(** ** Caption extraction *)

Lemma crop_no_rows {A} (a : array2 A) (y1 y2 x1 x2 : Z) :
  0 ≤ y1 → 0 ≤ y2 → y2 ≤ y1 ∨ Z.of_nat (nrows a) ≤ y1 → size (crop a y1 y2 x1 x2) = 0%nat.
Proof.
  intros Hy1 Hy2 Hempty. unfold size.
  rewrite crop_nrows by done.
  replace (Z.to_nat _) with 0%nat by lia. done.
Qed.

Section CaptionMore.

Context {pixel : Type}.
Variable image : array2 pixel.
Variable GaussianBlur : array2 Z → outcome (array2 Z).
Variable HoughCircles : array2 Z → outcome (option (list circle)).
Variable readtext : array2 pixel → outcome (list (box * string)).

Local Abbreviation extract := (extract_text_below image readtext).

(** X12. Whenever [extract_text_below] returns, its text has no leading or
    trailing whitespace, and either the region was empty, with the empty
    text, no box and no call, or text recognition was called exactly once,
    on the non-empty region, and the text is the stripped join of the
    spans it returned, with the box of the region. *)
Theorem extract_text_below_result (x y : Z) (text : string) (text_roi : option box)
    (log : list (@event pixel)) :
  extract (x, y) = (Ret (text, text_roi), log) →
  PyStr.strip text = text
  ∧ ∃ roi : array2 pixel,
      roi = crop image (y + 10) (Z.min (height image) (y + 80))
              (Z.max 0 (x - 80)) (Z.min (width image) (x + 80))
      ∧ (size roi = 0%nat ∧ text = EmptyString ∧ text_roi = None ∧ log = []
         ∨ size roi ≠ 0%nat
           ∧ text_roi = Some (Z.max 0 (x - 80), y + 10,
                              Z.min (width image) (x + 80), Z.min (height image) (y + 80))
           ∧ log = [EvReadtext roi]
           ∧ ∃ spans, readtext roi = Ret spans
                      ∧ text = PyStr.strip (PyStr.join " " (snd <$> spans))).
Proof.
  unfold extract_text_below. change (160 `div` 2) with 80.
  set (roi := crop _ _ _ _ _). intros Hrun.
  destruct (Nat.eqb_spec (size roi) 0) as [Hempty | Hsize].
  - injection Hrun as <- <- <-. split; [done |].
    exists roi. split; [done |]. by left.
  - unfold bind, call, ret in Hrun.
    destruct (readtext roi) as [spans | e] eqn:Hspans; [| done].
    injection Hrun as <- <- <-. split; [apply PyStrFacts.strip_idem |].
    exists roi. split; [done |]. right.
    split; [done |]. split; [done |]. split; [done |]. by exists spans.
Qed.

(** X13. Candidates at the border: a candidate in the top row of the image
    is never confirmed, and a candidate whose caption region would start
    below the last image row gets the empty caption; neither makes an
    external call. *)
Theorem border_candidates (binary : array2 Z) (x y search_height search_width : Z) :
  (y = 0 →
   ∃ roi_box,
     verify_head_circle image GaussianBlur HoughCircles binary (x, y)
       search_height search_width = (Ret (false, None, roi_box), []))
  ∧ (height image ≤ y + 10 → extract (x, y) = (Ret (EmptyString, None), [])).
Proof.
  split.
  - intros ->. unfold verify_head_circle.
    rewrite crop_no_rows by lia. by eexists.
  - intros Hy. unfold extract_text_below, height in *.
    rewrite crop_no_rows by lia. done.
Qed.

End CaptionMore.

Lemma extract_text_below_result_witness :
  PyStr.strip "User  Admin" = "User  Admin"%string.
Proof.
  apply (extract_text_below_result Scenario.sheet Scenario.ocr 50 50 "User  Admin"
           (Some (0, 60, 130, 130)) [EvReadtext (crop Scenario.sheet 60 130 0 130)]).
  vm_compute. reflexivity.
Defined.

Lemma border_candidates_witness :
  (∃ roi_box,
      verify_head_circle Scenario.sheet Scenario.blur Scenario.hough Scenario.sheet
        (50, 0) 35 50 = (Ret (false, None, roi_box), []))
  ∧ extract_text_below Scenario.sheet Scenario.ocr (50, 130) = (Ret (EmptyString, None), []).
Proof.
  split.
  - apply (proj1 (border_candidates Scenario.sheet Scenario.blur Scenario.hough
                    Scenario.ocr Scenario.sheet 50 0 35 50)). reflexivity.
  - apply (proj2 (border_candidates Scenario.sheet Scenario.blur Scenario.hough
                    Scenario.ocr Scenario.sheet 50 130 35 50)).
    vm_compute. discriminate.
Defined.

(** ** The report filter *)

Module ReportFacts.

Import Report PyStr PyStrFacts.
Import Api (named).

Lemma enumerate_fst {A} (l : list A) :
  ∀ start, fst <$> enumerate start l = seqZ start (len l).
Proof.
  unfold len. induction l as [| a l IH]; intros start; [done |].
  cbn [enumerate length]. rewrite fmap_cons, IH.
  rewrite (seqZ_cons start (Z.of_nat (S (length l)))) by lia.
  simpl fst. do 2 f_equal; lia.
Qed.

Lemma enumerate_snd {A} (l : list A) : ∀ start, snd <$> enumerate start l = l.
Proof.
  induction l as [| a l IH]; intros start; [done |].
  cbn [enumerate]. by rewrite fmap_cons, IH.
Qed.

Lemma renumber_enumerate (filtered : list record) :
  ∀ start,
    (λ '(new_id, (old_id, name)), (new_id, name)) <$> enumerate start filtered
    = enumerate start (snd <$> filtered).
Proof.
  induction filtered as [| [old_id name] l IH]; intros start; [done |].
  cbn [enumerate]. rewrite !fmap_cons. cbn [enumerate]. by rewrite IH.
Qed.

Lemma filtered_names (actors_list : list record) :
  snd <$> ((λ '(actor_id, name), (actor_id, strip name)) <$>
             List.filter (λ '(actor_id, name), truthy name && truthy (strip name)) actors_list)
  = strip <$> List.filter named (snd <$> actors_list).
Proof.
  induction actors_list as [| [actor_id name] l IH]; [done |].
  rewrite fmap_cons. cbn [List.filter snd]. unfold named at 1.
  destruct (truthy name && truthy (strip name)); [| done].
  rewrite !fmap_cons. cbn [snd]. by rewrite IH.
Qed.

(** The filter as a function of the names alone. *)
Lemma filter_and_renumber_names (actors_list : list record) :
  filter_and_renumber_actors actors_list
  = (enumerate 1 (strip <$> List.filter named (snd <$> actors_list)),
     {| total_detected := len (snd <$> actors_list);
        with_names := len (List.filter named (snd <$> actors_list));
        without_names :=
          len (snd <$> actors_list) - len (List.filter named (snd <$> actors_list));
        filtered_list := enumerate 1 (strip <$> List.filter named (snd <$> actors_list)) |}).
Proof.
  unfold filter_and_renumber_actors.
  rewrite renumber_enumerate, filtered_names.
  unfold len. rewrite !length_fmap.
  replace (length (List.filter (λ '(_, name), truthy name && truthy (strip name)) actors_list))
    with (length (List.filter named (snd <$> actors_list))); [done |].
  rewrite <- (length_fmap strip), <- filtered_names, !length_fmap. done.
Qed.

Lemma named_strip (name : string) : named name = true → named (strip name) = true.
Proof.
  unfold named. intros H. apply andb_true_iff in H as [_ H].
  by rewrite strip_idem, H.
Qed.

Lemma filter_named_strip (names : list string) :
  List.filter named (strip <$> List.filter named names) = strip <$> List.filter named names.
Proof.
  induction names as [| name names IH]; [done |].
  cbn [List.filter]. destruct (named name) eqn:Hname; [| done].
  rewrite fmap_cons. cbn [List.filter]. by rewrite (named_strip name Hname), IH.
Qed.

Lemma strip_strip_map (names : list string) : strip <$> (strip <$> names) = strip <$> names.
Proof.
  induction names as [| name names IH]; [done |].
  by rewrite !fmap_cons, strip_idem, IH.
Qed.

Lemma filter_stripped_names (names : list string) :
  Forall (λ name, strip name = name) names →
  strip <$> List.filter named names = List.filter truthy names.
Proof.
  induction 1 as [| name names Hname _ IH]; [done |].
  cbn [List.filter]. unfold named at 1. rewrite Hname, andb_diag.
  destruct (truthy name); [| done]. by rewrite fmap_cons, Hname, IH.
Qed.

End ReportFacts.

Import ReportFacts.
Import Api (named).

(** X14. The statistics of [filter_and_renumber_actors] add up:
    [total_detected] is the length of the input, [with_names] the length
    of the output, [without_names] their non-negative difference, and
    [filtered_list] is the output itself. *)
Theorem filter_and_renumber_stats (actors_list : list record) :
  let '(renumbered, stats) := Report.filter_and_renumber_actors actors_list in
  Report.total_detected stats = len actors_list
  ∧ Report.with_names stats = len renumbered
  ∧ Report.with_names stats + Report.without_names stats = Report.total_detected stats
  ∧ 0 ≤ Report.without_names stats
  ∧ Report.filtered_list stats = renumbered.
Proof.
  rewrite filter_and_renumber_names.
  cbn [Report.total_detected Report.with_names Report.without_names Report.filtered_list].
  unfold len. rewrite (enumerate_length (A:=string)), !length_fmap.
  pose proof (filter_length_le named (snd <$> actors_list)) as Hle.
  rewrite length_fmap in Hle. repeat split; lia.
Qed.

(** X15. The output of [filter_and_renumber_actors] is numbered 1, 2, ...
    without gaps, whatever ids the input carries; its names are the
    stripped names of the input records whose name is neither empty nor
    blank, in input order; each is non-empty and has no leading or
    trailing whitespace. *)
Theorem filter_and_renumber_output (actors_list : list record) :
  let renumbered := (Report.filter_and_renumber_actors actors_list).1 in
  fst <$> renumbered = seqZ 1 (len renumbered)
  ∧ snd <$> renumbered = PyStr.strip <$> List.filter named (snd <$> actors_list)
  ∧ Forall (λ r : record, PyStr.truthy r.2 = true ∧ PyStr.strip r.2 = r.2) renumbered.
Proof.
  rewrite filter_and_renumber_names. cbn [fst].
  set (names := PyStr.strip <$> List.filter named (snd <$> actors_list)).
  assert (Hnames : Forall (λ name, PyStr.truthy name = true ∧ PyStr.strip name = name) names).
  { unfold names. apply Forall_fmap, Forall_forall. intros name Hname.
    apply list_elem_of_In, filter_In in Hname as [_ Hname]. simpl. split.
    - unfold named in Hname. by apply andb_true_iff in Hname as [_ ?].
    - apply PyStrFacts.strip_idem. }
  split; [| split].
  - rewrite enumerate_fst. unfold len. by rewrite (enumerate_length (A:=string)).
  - apply enumerate_snd.
  - clearbody names. generalize 1. induction Hnames as [| name names Hname _ IH]; intros start.
    + constructor.
    + cbn [enumerate]. constructor; [done | apply IH].
Qed.

(** X16. Filtering is idempotent: applied to its own output, the filter
    returns that output again and counts no record without a name. *)
Theorem filter_and_renumber_idempotent (actors_list : list record) :
  let renumbered := (Report.filter_and_renumber_actors actors_list).1 in
  Report.filter_and_renumber_actors renumbered
  = (renumbered,
     {| Report.total_detected := len renumbered;
        Report.with_names := len renumbered;
        Report.without_names := 0;
        Report.filtered_list := renumbered |}).
Proof.
  rewrite (filter_and_renumber_names actors_list). cbn [fst].
  set (names := List.filter named (snd <$> actors_list)).
  rewrite filter_and_renumber_names, enumerate_snd.
  unfold names. rewrite filter_named_strip, strip_strip_map.
  unfold len. rewrite (enumerate_length (A:=string)). f_equal. f_equal. lia.
Qed.

(** X17. The filter never looks at the ids of its input: two lists with
    the same names in the same order give the same output and the same
    statistics. *)
Theorem filter_and_renumber_ignores_ids (l1 l2 : list record) :
  snd <$> l1 = snd <$> l2 →
  Report.filter_and_renumber_actors l1 = Report.filter_and_renumber_actors l2.
Proof. intros Hnames. by rewrite !filter_and_renumber_names, Hnames. Qed.

Lemma filter_and_renumber_ignores_ids_witness :
  Report.filter_and_renumber_actors [(7, "Ana"%string); (7, " "%string); (3, "Luis"%string)]
  = Report.filter_and_renumber_actors [(1, "Ana"%string); (2, " "%string); (3, "Luis"%string)].
Proof. apply filter_and_renumber_ignores_ids. reflexivity. Defined.

(** ** More on the detection run *)

Lemma filter_sublist {A} (f : A → bool) (l : list A) : List.filter f l `sublist_of` l.
Proof.
  induction l as [| a l IH]; simpl; [constructor |].
  destruct (f a); by constructor.
Qed.

Section RunMore.

Context {pixel : Type}.
Variable image : array2 pixel.
Variable cvtColor_gray : array2 pixel → outcome (array2 Z).
Variable match_locations : array2 Z → Z → outcome (list point).
Variable GaussianBlur : array2 Z → outcome (array2 Z).
Variable HoughCircles : array2 Z → outcome (option (list circle)).
Variable readtext : array2 pixel → outcome (list (box * string)).
Variable render : array2 Z → list point → list debug_entry → outcome unit.

Local Abbreviation verify := (verify_head_circle image GaussianBlur HoughCircles).
Local Abbreviation extract := (extract_text_below image readtext).
Local Abbreviation confirmed := (head_confirmed image GaussianBlur HoughCircles).
Local Abbreviation loop := (verify_loop image GaussianBlur HoughCircles readtext).
Local Abbreviation entry_of :=
  (Overlay.debug_entry_of image GaussianBlur HoughCircles readtext).
Local Abbreviation run :=
  (detect_actors image cvtColor_gray match_locations GaussianBlur HoughCircles readtext render).

Lemma verify_flag_circle (binary : array2 Z) (p : point) (ok : bool)
    (found : option circle) (roi_box : box) (log : list (@event pixel)) :
  verify binary p 35 50 = (Ret (ok, found, roi_box), log) → (ok = true ↔ is_Some found).
Proof.
  destruct p as [x y]. unfold verify_head_circle, bind, call, ret. intros Hrun.
  repeat case_match; simplify_eq; split; (done || (by intros [? ?]) || eauto).
Qed.

(** A returning loop went through every candidate: each verification
    returned, each confirmed candidate's caption extraction returned, and
    the debug entries are those of the candidates. *)
Lemma verify_loop_entries (binary : array2 Z) (actors : list point) :
  ∀ (idx : Z) (verified : list point) (debug_info : list debug_entry)
    (text_results : list record) (verified' : list point)
    (debug_info' : list debug_entry) (text_results' : list record)
    (log : list (@event pixel)),
    loop binary idx actors verified debug_info text_results
    = (Ret (verified', debug_info', text_results'), log) →
    debug_info' = debug_info ++ (entry_of binary <$> enumerate (idx + 1) actors)
    ∧ Forall (λ p, ∃ ok found roi_box l,
                verify binary p 35 50 = (Ret (ok, found, roi_box), l)
                ∧ (ok = true → ∃ text text_roi l', extract p = (Ret (text, text_roi), l')))
        actors.
Proof.
  induction actors as [| p actors IH];
    intros idx verified debug_info text_results verified' debug_info' text_results' log Hrun.
  - injection Hrun as <- <- <- <-. by rewrite app_nil_r.
  - simpl in Hrun.
    apply bind_Ret_inv in Hrun as ([[ok found] roi_box] & l1 & l2 & Hverify & Hrun & ->).
    destruct ok.
    + apply bind_Ret_inv in Hrun as ([text text_roi] & l3 & l4 & Hextract & Hrun & ->).
      apply IH in Hrun as (-> & Hall). split.
      * cbn [enumerate]. rewrite fmap_cons, <- app_assoc.
        unfold Overlay.debug_entry_of at 2. by rewrite Hverify, Hextract.
      * constructor; [| done]. exists true, found, roi_box, l1. split; [done |].
        intros _. by exists text, text_roi, l3.
    + apply IH in Hrun as (-> & Hall). split.
      * cbn [enumerate]. rewrite fmap_cons, <- app_assoc.
        unfold Overlay.debug_entry_of at 2. by rewrite Hverify.
      * constructor; [| done]. by exists false, found, roi_box, l1.
Qed.

Lemma detect_actors_loop (n : Z) (final_actors : list point) (text_results : list record)
    (log : list (@event pixel)) :
  run = (Ret (n, final_actors, text_results), log) →
  ∃ (binary : array2 Z) (actors verified : list point) (debug_info : list debug_entry)
    (l0 l1 l2 : list (@event pixel)),
    preprocess image cvtColor_gray = (Ret binary, l0)
    ∧ find_actors_by_template match_locations binary = (Ret actors, l1)
    ∧ loop binary 0 actors [] [] [] = (Ret (verified, debug_info, text_results), l2)
    ∧ final_actors = remove_near_duplicates verified
    ∧ log = l0 ++ l1 ++ l2 ++ [EvDraw final_actors debug_info].
Proof.
  unfold detect_actors. intros Hrun.
  apply bind_Ret_inv in Hrun as (binary & l0 & l0' & Hpre & Hrun & ->).
  apply bind_Ret_inv in Hrun as (actors & l1 & l1' & Hfind & Hrun & ->).
  apply bind_Ret_inv in Hrun
    as ([[verified debug_info] records] & l2 & l2' & Hloop & Hrun & ->).
  apply bind_Ret_inv in Hrun as ([] & l3 & l3' & Hdraw & Hrun & ->).
  injection Hrun as <- <- <- <-. injection Hdraw as _ <-.
  exists binary, actors, verified, debug_info, l0, l1, l2.
  by rewrite app_nil_r.
Qed.

(** X18. What the overlay is drawn from: the last external call of a
    returning run is the drawing, with the final positions and one debug
    entry per template candidate, in detection order, whether confirmed or
    not; the entries carry the candidates' positions and the returned
    records, and an entry has a circle exactly when its candidate was
    confirmed. *)
Theorem overlay_entries (n : Z) (final_actors : list point) (text_results : list record)
    (log : list (@event pixel)) :
  run = (Ret (n, final_actors, text_results), log) →
  ∃ (binary : array2 Z) (actors : list point) (debug_info : list debug_entry)
    (l0 l1 log0 : list (@event pixel)),
    preprocess image cvtColor_gray = (Ret binary, l0)
    ∧ find_actors_by_template match_locations binary = (Ret actors, l1)
    ∧ log = log0 ++ [EvDraw final_actors debug_info]
    ∧ (λ e : debug_entry, e.1.1.1.1) <$> debug_info = actors
    ∧ (λ e : debug_entry, e.1.2) <$> debug_info = text_results
    ∧ Forall (λ e : debug_entry, is_Some e.1.1.2 ↔ confirmed binary e.1.1.1.1 = true)
        debug_info.
Proof.
  intros Hrun. pose proof Hrun as Hstages.
  apply detect_actors_stages in Hstages
    as (binary' & actors' & l0' & l1' & Hpre' & Hfind' & _ & _ & Hrecords & _).
  apply detect_actors_loop in Hrun
    as (binary & actors & verified & debug_info & l0 & l1 & l2
        & Hpre & Hfind & Hloop & _ & ->).
  rewrite Hpre in Hpre'. injection Hpre' as <- <-.
  rewrite Hfind in Hfind'. injection Hfind' as <- <-.
  apply verify_loop_entries in Hloop as (-> & Hall). simpl.
  exists binary, actors, (entry_of binary <$> enumerate 1 actors), l0, l1, (l0 ++ l1 ++ l2).
  split; [done |]. split; [done |]. split; [by rewrite <- !app_assoc |].
  subst text_results. clear Hpre Hfind.
  generalize 1. induction Hall as [| p actors (ok & found & roi_box & l & Hv & Hx) _ IH];
    intros start; [done |].
  cbn [enumerate]. rewrite !fmap_cons.
  destruct (IH (start + 1)) as (IHpos & IHrec & IHcirc).
  assert (Hc : confirmed binary p = ok)
    by (unfold head_confirmed; rewrite Hv; by destruct ok).
  pose proof (verify_flag_circle _ _ _ _ _ _ Hv) as Hflag.
  unfold Overlay.debug_entry_of at 1 3 5, raw_record at 1. rewrite Hv, Hc.
  destruct ok.
  - destruct (Hx eq_refl) as (text & text_roi & l' & Hextract).
    unfold ocr_caption. rewrite Hextract. cbn [fst snd].
    split; [by rewrite IHpos |]. split; [by rewrite IHrec |].
    constructor; [| done]. cbn [fst snd]. rewrite Hc. by rewrite <- Hflag.
  - cbn [fst snd]. split; [by rewrite IHpos |]. split; [by rewrite IHrec |].
    constructor; [| done]. cbn [fst snd]. rewrite Hc. rewrite <- Hflag. done.
Qed.

(** X19. There is no handler around text recognition: when it raises for
    a confirmed candidate, the whole run raises and returns nothing. *)
Theorem readtext_failure_aborts (binary : array2 Z) (actors : list point)
    (l0 l1 l : list (@event pixel)) (p : point) (e : string) :
  preprocess image cvtColor_gray = (Ret binary, l0) →
  find_actors_by_template match_locations binary = (Ret actors, l1) →
  p ∈ actors →
  confirmed binary p = true →
  extract p = (Raise e, l) →
  ∃ e' log, run = (Raise e', log).
Proof.
  intros Hpre Hfind Hp Hc Hraise.
  destruct run as [[[[n final] records] | e'] log] eqn:Hrun; [| by exists e', log].
  exfalso.
  apply detect_actors_loop in Hrun
    as (binary' & actors' & verified & debug_info & l0' & l1' & l2
        & Hpre' & Hfind' & Hloop & _ & _).
  rewrite Hpre in Hpre'. injection Hpre' as <- <-.
  rewrite Hfind in Hfind'. injection Hfind' as <- <-.
  apply verify_loop_entries in Hloop as (_ & Hall).
  rewrite Forall_forall in Hall.
  destruct (Hall p Hp) as (ok & found & roi_box & lv & Hv & Hx).
  assert (ok = true) as -> by (unfold head_confirmed in Hc; rewrite Hv in Hc; by destruct ok).
  destruct (Hx eq_refl) as (text & text_roi & l' & Hextract). congruence.
Qed.

(** X20. The final positions are template candidates in detection order,
    and the final count is zero exactly when head verification confirmed
    no candidate. *)
Theorem final_count_zero_iff (n : Z) (final_actors : list point)
    (text_results : list record) (log : list (@event pixel)) :
  run = (Ret (n, final_actors, text_results), log) →
  ∃ (binary : array2 Z) (actors : list point) (l0 l1 : list (@event pixel)),
    preprocess image cvtColor_gray = (Ret binary, l0)
    ∧ find_actors_by_template match_locations binary = (Ret actors, l1)
    ∧ final_actors `sublist_of` actors
    ∧ (n = 0 ↔ Forall (λ p, confirmed binary p = false) actors).
Proof.
  intros Hrun.
  apply detect_actors_stages in Hrun
    as (binary & actors & l0 & l1 & Hpre & Hfind & -> & -> & _ & _).
  exists binary, actors, l0, l1. split; [done |]. split; [done |].
  unfold remove_near_duplicates, len.
  destruct (keep_far_sublist 25 (List.filter (confirmed binary) actors) [])
    as (k & Hk & Hsub).
  split.
  - rewrite Hk. simpl. etrans; [exact Hsub | apply filter_sublist].
  - split.
    + intros Hzero.
      assert (Hnil : List.filter (confirmed binary) actors = []).
      { destruct (List.filter (confirmed binary) actors) as [| a l] eqn:Hf; [done |].
        exfalso. simpl in Hzero. unfold append_if_far in Hzero. simpl in Hzero.
        destruct (keep_far_sublist 25 l [a]) as (k' & Hk' & _).
        rewrite Hk' in Hzero. simpl in Hzero. lia. }
      apply Forall_forall. intros p Hp.
      destruct (confirmed binary p) eqn:Hc; [| done].
      assert (Hin : In p (List.filter (confirmed binary) actors))
        by (apply filter_In; split; [by apply list_elem_of_In | done]).
      rewrite Hnil in Hin. destruct Hin.
    + intros Hnone.
      assert (Hnil : List.filter (confirmed binary) actors = []).
      { rewrite Forall_forall in Hnone.
        destruct (List.filter (confirmed binary) actors) as [| a l] eqn:Hf; [done |].
        assert (Hin : In a (List.filter (confirmed binary) actors)) by (rewrite Hf; by left).
        apply filter_In in Hin as [Hin Hc].
        apply list_elem_of_In, Hnone in Hin. congruence. }
      by rewrite Hnil.
Qed.

(** X21. No candidates: when the grey conversion returns and no template
    size has a response, the run returns count 0 with empty positions and
    records; nothing is verified or read, and the overlay is still drawn. *)
Theorem detect_actors_no_candidates (gray : array2 Z) :
  cvtColor_gray image = Ret gray →
  (∀ size, size ∈ template_sizes → match_locations (binarize gray) size = Ret []) →
  render (binarize gray) [] [] = Ret tt →
  run
  = (Ret (0, [], []),
     [EvCvtColor; EvMatchTemplate 40; EvMatchTemplate 50; EvMatchTemplate 60;
      EvMatchTemplate 70; EvMatchTemplate 80; EvDraw [] []]).
Proof.
  intros Hgray Hmatch Hrender.
  assert (H40 := Hmatch 40 ltac:(apply list_elem_of_In; simpl; tauto)).
  assert (H50 := Hmatch 50 ltac:(apply list_elem_of_In; simpl; tauto)).
  assert (H60 := Hmatch 60 ltac:(apply list_elem_of_In; simpl; tauto)).
  assert (H70 := Hmatch 70 ltac:(apply list_elem_of_In; simpl; tauto)).
  assert (H80 := Hmatch 80 ltac:(apply list_elem_of_In; simpl; tauto)).
  unfold detect_actors, preprocess, find_actors_by_template, template_sizes, draw_results.
  unfold bind, call, ret. rewrite Hgray. simpl.
  unfold bind, call, ret. rewrite H40. simpl.
  unfold bind, call, ret. rewrite H50. simpl.
  unfold bind, call, ret. rewrite H60. simpl.
  unfold bind, call, ret. rewrite H70. simpl.
  unfold bind, call, ret. rewrite H80. simpl.
  unfold remove_near_duplicates. simpl. by rewrite Hrender.
Qed.

End RunMore.

Lemma overlay_entries_witness :
  ∃ (actors : list point) (debug_info : list debug_entry) (log0 : list (@event Z)),
    Scenario.run.2 = log0 ++ [EvDraw Scenario.final_positions debug_info]
    ∧ (λ e : debug_entry, e.1.1.1.1) <$> debug_info = actors
    ∧ (λ e : debug_entry, e.1.2) <$> debug_info = Scenario.raw_records.
Proof.
  destruct (overlay_entries Scenario.sheet Scenario.gray_of Scenario.locations
              Scenario.blur Scenario.hough Scenario.ocr Scenario.overlay
              2 Scenario.final_positions Scenario.raw_records Scenario.run.2)
    as (binary & actors & debug_info & l0 & l1 & log0 & _ & _ & Hlog & Hpos & Hrec & _).
  - vm_compute. reflexivity.
  - exists actors, debug_info, log0.
    split; [exact Hlog |]. split; [exact Hpos | exact Hrec].
Defined.

Lemma readtext_failure_aborts_witness :
  ∃ e' log,
    detect_actors Scenario.sheet Scenario.gray_of Scenario.locations Scenario.blur
      Scenario.hough (λ _, Raise "easyocr"%string) Scenario.overlay
    = (Raise e', log).
Proof.
  apply (readtext_failure_aborts Scenario.sheet Scenario.gray_of Scenario.locations
           Scenario.blur Scenario.hough (λ _, Raise "easyocr"%string) Scenario.overlay
           (binarize Scenario.sheet) [(50, 50); (70, 50); (120, 50); (50, 100)]
           [EvCvtColor]
           [EvMatchTemplate 40; EvMatchTemplate 50; EvMatchTemplate 60;
            EvMatchTemplate 70; EvMatchTemplate 80]
           [EvReadtext (crop Scenario.sheet 60 130 0 130)]
           (50, 50) "easyocr"%string).
  - vm_compute. reflexivity.
  - vm_compute. reflexivity.
  - by left.
  - vm_compute. reflexivity.
  - vm_compute. reflexivity.
Defined.

Lemma final_count_zero_iff_witness :
  ∃ actors : list point, Scenario.final_positions `sublist_of` actors.
Proof.
  destruct (final_count_zero_iff Scenario.sheet Scenario.gray_of Scenario.locations
              Scenario.blur Scenario.hough Scenario.ocr Scenario.overlay
              2 Scenario.final_positions Scenario.raw_records Scenario.run.2)
    as (binary & actors & l0 & l1 & _ & _ & Hsub & _).
  - vm_compute. reflexivity.
  - exists actors. exact Hsub.
Defined.

Lemma detect_actors_no_candidates_witness :
  detect_actors Scenario.sheet Scenario.gray_of (λ _ _, Ret []) Scenario.blur
    Scenario.hough Scenario.ocr Scenario.overlay
  = (Ret (0, [], []),
     [EvCvtColor; EvMatchTemplate 40; EvMatchTemplate 50; EvMatchTemplate 60;
      EvMatchTemplate 70; EvMatchTemplate 80; EvDraw [] []]).
Proof.
  apply (detect_actors_no_candidates Scenario.sheet Scenario.gray_of (λ _ _, Ret [])
           Scenario.blur Scenario.hough Scenario.ocr Scenario.overlay Scenario.sheet);
    reflexivity.
Defined.

(** ** From the run to the report *)

Section RunReport.

Context {pixel : Type}.
Variable image : array2 pixel.
Variable cvtColor_gray : array2 pixel → outcome (array2 Z).
Variable match_locations : array2 Z → Z → outcome (list point).
Variable GaussianBlur : array2 Z → outcome (array2 Z).
Variable HoughCircles : array2 Z → outcome (option (list circle)).
Variable readtext : array2 pixel → outcome (list (box * string)).
Variable render : array2 Z → list point → list debug_entry → outcome unit.

Lemma ocr_caption_stripped (p : point) :
  PyStr.strip (ocr_caption image readtext p) = ocr_caption image readtext p.
Proof.
  destruct p as [x y]. unfold ocr_caption, extract_text_below, bind, call, ret.
  repeat case_match; simplify_eq; try done. apply PyStrFacts.strip_idem.
Qed.

(** X22. The report filter applied to the records of a returning run: the
    captions are already stripped, so the filter only drops the records
    with the empty caption and renumbers the others; it counts one
    detection per record, and the final count of the run does not exceed
    that total. *)
Theorem report_of_run (n : Z) (final_actors : list point) (text_results : list record)
    (log : list (@event pixel)) :
  detect_actors image cvtColor_gray match_locations GaussianBlur HoughCircles readtext render
  = (Ret (n, final_actors, text_results), log) →
  let '(filtered_actors, stats) := Report.filter_and_renumber_actors text_results in
  filtered_actors = enumerate 1 (List.filter PyStr.truthy (snd <$> text_results))
  ∧ Report.total_detected stats = len text_results
  ∧ n ≤ Report.total_detected stats.
Proof.
  intros Hrun.
  apply detect_actors_stages in Hrun
    as (binary & actors & l0 & l1 & _ & _ & -> & -> & -> & _).
  rewrite filter_and_renumber_names.
  cbn [Report.total_detected].
  rewrite filter_stripped_names.
  - split; [done |]. unfold len, remove_near_duplicates.
    rewrite !length_fmap, enumerate_length.
    pose proof (keep_far_length 25
                  (List.filter (head_confirmed image GaussianBlur HoughCircles binary) actors)
                  []) as Hlen.
    pose proof (filter_length_le (head_confirmed image GaussianBlur HoughCircles binary)
                  actors).
    simpl in Hlen. split; lia.
  - apply Forall_fmap, Forall_fmap, Forall_true. intros [idx p]. simpl.
    destruct (head_confirmed _ _ _ _ _); [apply ocr_caption_stripped | done].
Qed.

End RunReport.

Lemma report_of_run_witness :
  (Report.filter_and_renumber_actors Scenario.raw_records).1
  = enumerate 1 (List.filter PyStr.truthy (snd <$> Scenario.raw_records)).
Proof.
  pose proof (report_of_run Scenario.sheet Scenario.gray_of Scenario.locations
                Scenario.blur Scenario.hough Scenario.ocr Scenario.overlay
                2 Scenario.final_positions Scenario.raw_records Scenario.run.2) as H.
  destruct (Report.filter_and_renumber_actors Scenario.raw_records) as [filtered stats].
  apply H. vm_compute. reflexivity.
Defined.

(** ** The JSON answer *)

Lemma filter_negb_length {A} (f : A → bool) (l : list A) :
  (length (List.filter (λ a, negb (f a)) l) + length (List.filter f l) = length l)%nat.
Proof. induction l as [| a l IH]; simpl; [done |]. destruct (f a); simpl; lia. Qed.

Lemma filter_named_records (actors_list : list record) :
  length (List.filter named (snd <$> actors_list))
  = length (List.filter (λ r : record, named r.2) actors_list).
Proof.
  induction actors_list as [| [actor_id name] l IH]; [done |].
  rewrite fmap_cons. simpl. destruct (named name); simpl; by rewrite IH.
Qed.

(** X23. The JSON answer with [include_empty]: every record of the run is
    listed under [all_detected_actors], and each is either among [actors]
    or, by its id, among [omitted_actors]; the statistics are the lengths
    of these lists, and [positions] has one entry per final position. *)
Theorem json_response_partition (detection_time : string) (actor_positions : list point)
    (actors_list : list record) :
  let r := Api.json_response detection_time true actor_positions actors_list in
  ∃ (all_detected : list Api.original_json) (omitted : list Z),
    Api.all_detected_actors r = Some all_detected
    ∧ Api.omitted_actors r = Some omitted
    ∧ Api.original_id <$> all_detected = fst <$> actors_list
    ∧ omitted = fst <$> List.filter (λ rec : record, negb (named rec.2)) actors_list
    ∧ len (Api.actors r) + len omitted = len all_detected
    ∧ Report.stat_total_detected (Api.statistics r) = len all_detected
    ∧ Report.stat_with_names (Api.statistics r) = len (Api.actors r)
    ∧ Report.in_final_report (Api.statistics r) = len (Api.actors r)
    ∧ Report.stat_without_names (Api.statistics r) = len omitted
    ∧ length (Api.positions r) = length actor_positions.
Proof.
  unfold Api.json_response. rewrite filter_and_renumber_names. cbn.
  eexists _, _. split; [reflexivity |]. split; [reflexivity |].
  assert (Hfilter :
    List.filter (λ '(_, name), negb (PyStr.truthy name) || negb (PyStr.truthy (PyStr.strip name)))
      actors_list
    = List.filter (λ rec : record, negb (named rec.2)) actors_list).
  { apply filter_ext. intros [actor_id name]. unfold named. simpl.
    by rewrite negb_andb. }
  rewrite Hfilter.
  assert (Hpart :
    (length (List.filter (λ rec : record, negb (named rec.2)) actors_list)
     + length (List.filter (λ r : record, named r.2) actors_list)
     = length actors_list)%nat)
    by apply (filter_negb_length (λ rec : record, named rec.2)).
  pose proof (filter_named_records actors_list) as Hnamed.
  unfold len.
  repeat first [rewrite (enumerate_length (A:=string)) | rewrite length_fmap].
  split.
  { rewrite <- list_fmap_compose. apply list_fmap_ext. by intros i [actor_id name]. }
  split; [done |].
  rewrite Hnamed. unfold record in *.
  repeat split; try lia.
  destruct actor_positions; [done |]. by rewrite length_fmap.
Qed.

(** ** The endpoint *)

Section EndpointFacts.

Import Endpoint.

Context {buffer : Type}.
Variable temp_file : string → outcome string.
Variable copyfileobj : string → outcome unit.
Variable close : string → outcome unit.
Variable detector : string → bool → outcome (Z * list point * list record).
Variable create_actors_pdf : list record → string → option string → outcome buffer.
Variable create_compact_actors_pdf : list record → outcome buffer.
Variable exists_path : string → bool.
Variable detection_time stamp original_name extension allowed_joined : string.
Variable http_str : Z → string → string.

Local Abbreviation handler :=
  (Endpoint.detect_actors temp_file copyfileobj close detector create_actors_pdf
     create_compact_actors_pdf exists_path detection_time stamp original_name extension
     allowed_joined http_str).

(** X24. The status codes of the endpoint: it raises 400 exactly when the
    extension of the upload is not allowed, and then nothing has been
    created or run; once the extension is accepted the handler returns a
    response or raises 500, never 400. *)
Theorem endpoint_status (debug : bool) (format : string) (include_empty : bool) :
  match handler debug format include_empty with
  | (inl (HTTPException status_code _), log) =>
    status_code = 400 ∧ allowed (lower extension) = false ∧ log = []
    ∨ status_code = 500 ∧ allowed (lower extension) = true
  | (inr _, _) => allowed (lower extension) = true
  end.
Proof.
  unfold Endpoint.detect_actors.
  destruct (allowed (lower extension)); simpl; [| by left].
  destruct (try_block _ _ _ _ _ _ _ _ _ _ _ _ _ _) as [path [[response | e] log]];
    [done | by right].
Qed.

(** X25. An unknown format is not answered with the 400 that the code
    raises for it: the exception is raised inside the [try] block, after
    the detector has run, and the handler's own [except] clause turns it
    into a 500 that quotes it. *)
Theorem endpoint_invalid_format (debug : bool) (format : string) (include_empty : bool)
    (path : string) (detected : Z * list point * list record) :
  allowed (lower extension) = true →
  temp_file (lower extension) = Ret path →
  copyfileobj path = Ret tt →
  close path = Ret tt →
  detector path debug = Ret detected →
  lower format ≠ "json"%string →
  lower format ≠ "pdf"%string →
  lower format ≠ "compact-pdf"%string →
  ∃ log,
    handler debug format include_empty
    = (inl (HTTPException 500
              (String.append "Error processing image: " (http_str 400 invalid_format))),
       [ActTempFile (lower extension); ActCopy path; ActClose path; ActDetect path debug]
       ++ log).
Proof.
  intros Hext Htemp Hcopy Hclose Hdetect Hjson Hpdf Hcompact.
  unfold Endpoint.detect_actors, try_block, process. rewrite Hext, Htemp, Hcopy. simpl.
  unfold bind, call, ret. rewrite Hclose, Hdetect.
  destruct detected as [[actor_count actor_positions] actors_list].
  apply String.eqb_neq in Hjson, Hpdf, Hcompact. rewrite Hjson, Hpdf, Hcompact.
  simpl. by eexists.
Qed.

(** X26. Cleanup of the uploaded copy.  Once the upload has been copied to
    the temporary file, the handler always ends, on success and on every
    failure alike, by testing whether that file exists and unlinking it if
    it does.  When the copy itself raises, the name of the created file is
    never recorded: the handler raises 500 and neither tests for the file
    nor unlinks it. *)
Theorem endpoint_cleanup (debug : bool) (format : string) (include_empty : bool)
    (path : string) :
  allowed (lower extension) = true →
  temp_file (lower extension) = Ret path →
  PyStr.truthy path = true →
  (copyfileobj path = Ret tt →
   ∃ log0,
     (handler debug format include_empty).2
     = [ActTempFile (lower extension); ActCopy path; ActClose path] ++ log0
       ++ (if exists_path path then [ActExists path; ActUnlink path] else [ActExists path]))
  ∧ (∀ e, copyfileobj path = Raise e →
          ∃ e',
            handler debug format include_empty
            = (inl (HTTPException 500 (String.append "Error processing image: " e')),
               [ActTempFile (lower extension); ActCopy path; ActClose path])).
Proof.
  intros Hext Htemp Hpath. split.
  - intros Hcopy. unfold Endpoint.detect_actors, try_block, finally.
    rewrite Hext, Htemp, Hcopy, Hpath. simpl. unfold bind at 1 2, call.
    destruct (close path) as [[] | e].
    + destruct (process _ _ _ _ _ _ _ _ _ _ _) as [r log0]. simpl.
      by exists log0.
    + simpl. by exists [].
  - intros e Hcopy. unfold Endpoint.detect_actors, try_block, finally.
    rewrite Hext, Htemp, Hcopy. simpl.
    destruct (close path) as [[] | e']; by eexists.
Qed.

(** X27. With an accepted extension, a saved upload and a returning
    detector, the format [json], in any letter case, is answered with the
    JSON content built from the detector's positions and records; no PDF
    is built, and the temporary file is tested for and unlinked. *)
Theorem endpoint_json (debug : bool) (format : string) (include_empty : bool)
    (path : string) (actor_count : Z) (actor_positions : list point)
    (actors_list : list record) :
  allowed (lower extension) = true →
  temp_file (lower extension) = Ret path →
  PyStr.truthy path = true →
  copyfileobj path = Ret tt →
  close path = Ret tt →
  detector path debug = Ret (actor_count, actor_positions, actors_list) →
  lower format = "json"%string →
  handler debug format include_empty
  = (inr (JSONResponse
            (Api.json_response detection_time include_empty actor_positions actors_list)),
     [ActTempFile (lower extension); ActCopy path; ActClose path; ActDetect path debug]
     ++ (if exists_path path then [ActExists path; ActUnlink path] else [ActExists path])).
Proof.
  intros Hext Htemp Hpath Hcopy Hclose Hdetect Hjson.
  unfold Endpoint.detect_actors, try_block, process, finally.
  rewrite Hext, Htemp, Hcopy, Hpath. simpl.
  unfold bind, call, ret. rewrite Hclose, Hdetect, Hjson. reflexivity.
Qed.

End EndpointFacts.

Lemma endpoint_invalid_format_witness :
  ∃ log,
    Upload.request Upload.copyfileobj false "XML" false
    = (inl (Endpoint.HTTPException 500
              "Error processing image: 400: Invalid format. Choose 'pdf', 'json', or 'compact-pdf'"),
       [Endpoint.ActTempFile ".png"; Endpoint.ActCopy "tmp/tmpk3x9.png";
        Endpoint.ActClose "tmp/tmpk3x9.png"; Endpoint.ActDetect "tmp/tmpk3x9.png" false]
       ++ log).
Proof.
  apply (endpoint_invalid_format Upload.temp_file Upload.copyfileobj Upload.close
           Upload.detector Upload.create_actors_pdf Upload.create_compact_actors_pdf
           Upload.exists_path "2025-01-01T12:00:00" "20250101_120000" "diagram" ".PNG"
           ".png, .jpg, .jpeg, .bmp, .tiff, .webp" Upload.http_str
           false "XML" false "tmp/tmpk3x9.png"
           (2, Scenario.final_positions, Scenario.raw_records));
    (reflexivity || (vm_compute; discriminate)).
Defined.

Lemma endpoint_cleanup_witness :
  (∃ log0,
      (Upload.request Upload.copyfileobj true "pdf" false).2
      = [Endpoint.ActTempFile ".png"; Endpoint.ActCopy "tmp/tmpk3x9.png";
         Endpoint.ActClose "tmp/tmpk3x9.png"] ++ log0
        ++ [Endpoint.ActExists "tmp/tmpk3x9.png"; Endpoint.ActUnlink "tmp/tmpk3x9.png"])
  ∧ ∃ e',
      Upload.request Upload.copy_fails true "pdf" false
      = (inl (Endpoint.HTTPException 500 (String.append "Error processing image: " e')),
         [Endpoint.ActTempFile ".png"; Endpoint.ActCopy "tmp/tmpk3x9.png";
          Endpoint.ActClose "tmp/tmpk3x9.png"]).
Proof.
  split.
  - apply (proj1 (endpoint_cleanup Upload.temp_file Upload.copyfileobj Upload.close
                    Upload.detector Upload.create_actors_pdf Upload.create_compact_actors_pdf
                    Upload.exists_path "2025-01-01T12:00:00" "20250101_120000" "diagram"
                    ".PNG" ".png, .jpg, .jpeg, .bmp, .tiff, .webp" Upload.http_str
                    true "pdf" false "tmp/tmpk3x9.png" eq_refl eq_refl eq_refl)).
    reflexivity.
  - apply (proj2 (endpoint_cleanup Upload.temp_file Upload.copy_fails Upload.close
                    Upload.detector Upload.create_actors_pdf Upload.create_compact_actors_pdf
                    Upload.exists_path "2025-01-01T12:00:00" "20250101_120000" "diagram"
                    ".PNG" ".png, .jpg, .jpeg, .bmp, .tiff, .webp" Upload.http_str
                    true "pdf" false "tmp/tmpk3x9.png" eq_refl eq_refl eq_refl)
             "No space left on device"%string).
    reflexivity.
Defined.

Lemma endpoint_json_witness :
  Upload.request Upload.copyfileobj false "JSON" true
  = (inr (Endpoint.JSONResponse
            (Api.json_response "2025-01-01T12:00:00" true Scenario.final_positions
               Scenario.raw_records)),
     [Endpoint.ActTempFile ".png"; Endpoint.ActCopy "tmp/tmpk3x9.png";
      Endpoint.ActClose "tmp/tmpk3x9.png"; Endpoint.ActDetect "tmp/tmpk3x9.png" false;
      Endpoint.ActExists "tmp/tmpk3x9.png"; Endpoint.ActUnlink "tmp/tmpk3x9.png"]).
Proof.
  apply (endpoint_json Upload.temp_file Upload.copyfileobj Upload.close
           Upload.detector Upload.create_actors_pdf Upload.create_compact_actors_pdf
           Upload.exists_path "2025-01-01T12:00:00" "20250101_120000" "diagram" ".PNG"
           ".png, .jpg, .jpeg, .bmp, .tiff, .webp" Upload.http_str
           false "JSON" true "tmp/tmpk3x9.png" 2 Scenario.final_positions
           Scenario.raw_records);
    reflexivity.
Defined.

(** ** Templates and the margin of the candidates *)

(** X28. For every positive template size, and so for the five sizes in
    use, the head circle, the body and the arms that are drawn lie inside
    the size x size template; the body starts at the lowest point of the
    head, and the arm line meets the body between its two ends. *)
Theorem template_strokes_inside (size : Z) :
  0 < size →
  (∀ s p, s ∈ Template.template_strokes size → p ∈ Template.extent s →
          0 ≤ p.1 < size ∧ 0 ≤ p.2 < size)
  ∧ ∃ cx head_r body_end arm_y arm_len,
      Template.template_strokes size
      = [Template.Circle (cx, head_r) head_r 255 1;
         Template.Line (cx, head_r + head_r) (cx, body_end) 255 1;
         Template.Line (cx - arm_len, arm_y) (cx + arm_len, arm_y) 255 1]
      ∧ head_r + head_r ≤ arm_y ≤ body_end
      ∧ cx - arm_len ≤ cx ≤ cx + arm_len.
Proof.
  intros Hsize. unfold Template.template_strokes. split.
  - intros s p Hs Hp.
    apply elem_of_cons in Hs as [-> | Hs];
      [| apply elem_of_cons in Hs as [-> | Hs];
         [| apply list_elem_of_singleton in Hs as ->]];
      cbn [Template.extent] in Hp;
      (apply elem_of_cons in Hp as [-> | Hp];
         [| apply list_elem_of_singleton in Hp as ->]);
      cbn [fst snd]; Z.div_mod_to_equations; lia.
  - eexists _, _, _, _, _. split.
    + replace (size `div` 6 * 2) with (size `div` 6 + size `div` 6) by lia. reflexivity.
    + Z.div_mod_to_equations. lia.
Qed.

Lemma template_strokes_inside_witness :
  0 ≤ 20 + 13 < 40 ∧ 0 ≤ 6 * 2 + 4 < 40.
Proof.
  apply (proj1 (template_strokes_inside 40 ltac:(lia))
           (Template.Line (20 - 13, 6 * 2 + 4) (20 + 13, 6 * 2 + 4) 255 1)
           (20 + 13, 6 * 2 + 4)).
  - right. right. left.
  - right. left.
Defined.

Lemma keep_far_Forall (P : point → Prop) (d : Z) (l : list point) :
  ∀ acc, Forall P acc → Forall P l → Forall P (keep_far d acc l).
Proof.
  induction l as [| a l IH]; intros acc Hacc Hl; simpl; [done |].
  apply Forall_cons in Hl as [Ha Hl]. apply IH; [| done].
  unfold append_if_far. destruct (forallb _ acc); [| done].
  apply Forall_app. split; [done |]. by constructor.
Qed.

Lemma crop_size_pos {A} (w : nat) (a : array2 A) (y1 y2 x1 x2 : Z) :
  rect w a →
  0 ≤ y1 < y2 →
  y1 < Z.of_nat (nrows a) →
  0 ≤ x1 < x2 →
  x1 < Z.of_nat w →
  size (crop a y1 y2 x1 x2) ≠ 0%nat.
Proof.
  intros Hrect Hy Hrows Hx Hcols.
  pose proof (crop_nrows a y1 y2 x1 x2 ltac:(lia) ltac:(lia)) as Hn.
  pose proof (crop_rect w a y1 y2 x1 x2 Hrect ltac:(lia) ltac:(lia)) as Hr.
  unfold size, rect, nrows, ncols in *.
  destruct (crop a y1 y2 x1 x2) as [| row rows] eqn:Hcrop.
  - simpl in Hn. lia.
  - apply Forall_cons in Hr as [Hrow _].
    assert (Hpos : (0 < length row)%nat) by (rewrite Hrow; lia).
    cbn [length]. nia.
Qed.

Section Margin.

Context {pixel : Type}.
Variable image : array2 pixel.
Variable match_locations : array2 Z → Z → outcome (list point).
Variable GaussianBlur : array2 Z → outcome (array2 Z).
Variable HoughCircles : array2 Z → outcome (option (list circle)).
Variable readtext : array2 pixel → outcome (list (box * string)).

Lemma match_sizes_Forall (P : point → Prop) (binary : array2 Z) (sizes : list Z) :
  (∀ size l pt, size ∈ sizes → match_locations binary size = Ret l → pt ∈ l →
                P (center size pt)) →
  ∀ (actors0 actors : list point) (log : list (@event pixel)),
    Forall P actors0 →
    match_sizes match_locations binary sizes actors0 = (Ret actors, log) →
    Forall P actors.
Proof.
  induction sizes as [| size sizes IH]; intros Hcenters actors0 actors log Hacc Hrun.
  - by injection Hrun as <- _.
  - simpl in Hrun. apply bind_Ret_inv in Hrun as (l & l1 & l2 & Hcall & Hrest & ->).
    injection Hcall as Hloc _.
    eapply IH; [| | exact Hrest].
    + intros size' l' pt Hsize'. apply Hcenters. by right.
    + apply keep_far_Forall; [done |].
      apply Forall_fmap, Forall_forall. intros pt Hpt. simpl.
      apply (Hcenters size l pt); [by left | done | done].
Qed.

(** X29. The candidates keep a margin of 20 px from the borders: when
    every accepted response lies inside the response map of its template
    size (corner coordinates from 0 to width - size and height - size, as
    for a result of [np.where] on the map), every candidate (x, y) has
    20 <= x <= width - 20 and 20 <= y <= height - 20. *)
Theorem candidates_keep_margin (binary : array2 Z) (actors : list point)
    (log : list (@event pixel)) (w h : Z) :
  (∀ size l pt, size ∈ template_sizes → match_locations binary size = Ret l → pt ∈ l →
                0 ≤ pt.1 ≤ w - size ∧ 0 ≤ pt.2 ≤ h - size) →
  find_actors_by_template match_locations binary = (Ret actors, log) →
  ∀ x y, (x, y) ∈ actors → 20 ≤ x ≤ w - 20 ∧ 20 ≤ y ≤ h - 20.
Proof.
  intros Hlocs Hrun x y Hxy.
  assert (Hall : Forall (λ p : point, 20 ≤ p.1 ≤ w - 20 ∧ 20 ≤ p.2 ≤ h - 20) actors).
  { eapply (match_sizes_Forall _ binary template_sizes); [| constructor | exact Hrun].
    intros size l pt Hsize Hl Hpt.
    destruct (Hlocs size l pt Hsize Hl Hpt) as [Hx Hy].
    unfold center. cbn [fst snd].
    unfold template_sizes in Hsize.
    repeat (apply elem_of_cons in Hsize as [-> | Hsize]);
      [| | | | | by apply elem_of_nil in Hsize];
      vm_compute Z.div; lia. }
  rewrite Forall_forall in Hall. apply (Hall (x, y) Hxy).
Qed.

(** X30. For a candidate inside that margin the degenerate cases do not
    occur: on a rectangular image and a mask of the same shape, head
    verification always reaches the blur of a non-empty search region,
    and caption extraction always calls text recognition, once. *)
Theorem margin_candidates_have_regions (binary : array2 Z) (x y : Z) :
  rect (ncols image) image →
  rect (ncols image) binary →
  nrows binary = nrows image →
  20 ≤ x ≤ width image - 20 →
  20 ≤ y ≤ height image - 20 →
  (∃ roi log,
      (verify_head_circle image GaussianBlur HoughCircles binary (x, y) 35 50).2
      = EvGaussianBlur roi :: log
      ∧ size roi ≠ 0%nat)
  ∧ ∃ roi,
      (extract_text_below image readtext (x, y)).2 = [EvReadtext roi]
      ∧ size roi ≠ 0%nat.
Proof.
  unfold width, height. intros Himage Hbinary Hrows Hx Hy. split.
  - unfold verify_head_circle, width. change (50 `div` 2) with 25.
    set (roi := crop _ _ _ _ _).
    assert (Hsize : size roi ≠ 0%nat).
    { apply (crop_size_pos (ncols image)); [done | lia | lia | lia | lia]. }
    destruct (Nat.eqb_spec (size roi) 0) as [? | _]; [done |].
    unfold call. exists roi. unfold bind at 1.
    destruct (GaussianBlur roi) as [roi_blur | e]; [| by exists []].
    destruct (bind _ _) as [r log]. by exists log.
  - unfold extract_text_below, width, height. change (160 `div` 2) with 80.
    set (roi := crop _ _ _ _ _).
    assert (Hsize : size roi ≠ 0%nat).
    { apply (crop_size_pos (ncols image)); [done | lia | lia | lia | lia]. }
    destruct (Nat.eqb_spec (size roi) 0) as [? | _]; [done |].
    unfold bind, call, ret. exists roi.
    destruct (readtext roi) as [spans | e]; by split.
Qed.

End Margin.

Lemma candidates_keep_margin_witness :
  20 ≤ 120 ≤ 160 - 20 ∧ 20 ≤ 50 ≤ 140 - 20.
Proof.
  apply (candidates_keep_margin (pixel:=Z) Scenario.locations Scenario.sheet
           [(50, 50); (70, 50); (120, 50); (50, 100)]
           [EvMatchTemplate 40; EvMatchTemplate 50; EvMatchTemplate 60;
            EvMatchTemplate 70; EvMatchTemplate 80] 160 140).
  - intros size l pt Hsize Hl Hpt. unfold Scenario.locations in Hl.
    destruct (size =? 40) eqn:Hs; injection Hl as <-.
    + apply Z.eqb_eq in Hs as ->.
      repeat (apply elem_of_cons in Hpt as [-> | Hpt]); simpl; try lia.
      by apply elem_of_nil in Hpt.
    + by apply elem_of_nil in Hpt.
  - vm_compute. reflexivity.
  - right. right. left.
Defined.

Lemma margin_candidates_have_regions_witness :
  ∃ roi,
    (extract_text_below Scenario.sheet Scenario.ocr (120, 50)).2 = [EvReadtext roi]
    ∧ size roi ≠ 0%nat.
Proof.
  apply (margin_candidates_have_regions Scenario.sheet Scenario.blur Scenario.hough
           Scenario.ocr Scenario.sheet 120 50).
  - apply sheet_rect.
  - apply sheet_rect.
  - reflexivity.
  - vm_compute. split; discriminate.
  - vm_compute. split; discriminate.
Defined.

(** ** Head verification in debug mode *)

Section HeadDebugFacts.

Import HeadDebug.
Local Open Scope detector_scope.

Context {pixel canvas : Type}.
Variable image : array2 pixel.
Variable GaussianBlur : array2 Z → outcome (array2 Z).
Variable HoughCircles : array2 Z → outcome (option (list circle)).
Variable imwrite_roi : string → array2 Z → outcome bool.
Variable cvtColor_bgr : array2 Z → outcome canvas.
Variable circle_on : canvas → Z * Z → Z → outcome canvas.
Variable imwrite_out : string → canvas → outcome bool.

Local Abbreviation verify_debug :=
  (verify_head_circle_debug image GaussianBlur HoughCircles imwrite_roi cvtColor_bgr
     circle_on imwrite_out).
Local Abbreviation detection := (detection_calls (pixel:=pixel) (canvas:=canvas)).

Lemma detection_cons (c : head_call) (l : list head_call) :
  detection (c :: l)
  = match c with
    | CallGaussianBlur roi => EvGaussianBlur roi :: detection l
    | CallHoughCircles roi => EvHoughCircles roi :: detection l
    | _ => detection l
    end.
Proof. by destruct c. Qed.

Lemma detection_app (l k : list head_call) : detection (l ++ k) = detection l ++ detection k.
Proof. apply omap_app. Qed.

Lemma detection_length (l : list head_call) : (length (detection l) ≤ length l)%nat.
Proof.
  induction l as [| c l IH]; [done |].
  rewrite detection_cons. destruct c; simpl; lia.
Qed.

Local Ltac detection_of Hquiet :=
  repeat first [rewrite detection_app | rewrite detection_cons | rewrite Hquiet];
  reflexivity.

Lemma draw_circles_quiet (circles : list circle) :
  ∀ out : canvas, detection (draw_circles circle_on out circles).2 = [].
Proof.
  induction circles as [| [[cx cy] r] circles IH]; intros out; [done |].
  simpl. unfold bind, call.
  destruct (circle_on out (cx, cy) r) as [out' | e]; [| done].
  specialize (IH out'). destruct (draw_circles circle_on out' circles) as [res log].
  exact IH.
Qed.

(** The drawing part of the debug branch makes no blur or search call. *)
Lemma debug_drawing_quiet (actor_id : option Z) (roi : array2 Z)
    (passing circles16 : list circle) :
  detection
    (let* out := call (CallCvtColor roi) (cvtColor_bgr roi) in
     let* out := match passing with
                 | [] => ret out
                 | _ :: _ => draw_circles circle_on out circles16
                 end in
     let* _ := call (CallImwriteCircles (circles_file actor_id) out)
                 (imwrite_out (circles_file actor_id) out) in
     ret tt).2 = [].
Proof.
  unfold bind at 1, call at 1.
  destruct (cvtColor_bgr roi) as [out | e]; [| done].
  assert (Hdraw : detection
                    (match passing with
                     | [] => ret out
                     | _ :: _ => draw_circles circle_on out circles16
                     end).2 = []).
  { destruct passing; [done | apply draw_circles_quiet]. }
  unfold bind at 1.
  destruct (match passing with [] => _ | _ => _ end) as [[out' | e] l1]; cbn [snd] in Hdraw.
  - unfold bind, call, ret.
    destruct (imwrite_out _ out') as [written | e]; cbn [snd]; detection_of Hdraw.
  - cbn [snd]. detection_of Hdraw.
Qed.

(** X9. The blur and circle-search calls of [verify_head_circle], whatever
    its outcome and whether [self.debug] is set or not.  With an empty
    search region it makes no external call at all.  Otherwise
    [GaussianBlur] is called at most once, on the non-empty region, and
    [HoughCircles] at most once, only after the blur returned and on the
    blurred region.  With debug off these are all the external calls, and
    result and calls are those of the model without the flag; with debug
    on the region is first written to the debug file. *)
Theorem verify_head_circle_debug_calls (debug : bool) (binary : array2 Z)
    (x y search_height search_width : Z) (actor_id : option Z)
    (r : outcome (bool * option circle * box)) (log : list head_call) :
  verify_debug debug binary (x, y) actor_id search_height search_width = (r, log) →
  ∃ roi : array2 Z,
    roi = crop binary (Z.max 0 (y - search_height)) y
            (Z.max 0 (x - search_width `div` 2))
            (Z.min (width image) (x + search_width `div` 2))
    ∧ (size roi = 0%nat → log = [])
    ∧ (detection log = []
       ∨ size roi ≠ 0%nat
         ∧ (detection log = [EvGaussianBlur roi]
            ∨ ∃ roi_blur,
                GaussianBlur roi = Ret roi_blur
                ∧ detection log = [EvGaussianBlur roi; EvHoughCircles roi_blur]))
    ∧ (debug = false →
       (r, detection log)
       = verify_head_circle image GaussianBlur HoughCircles binary (x, y)
           search_height search_width
       ∧ length (detection log) = length log)
    ∧ (debug = true → size roi ≠ 0%nat →
       ∃ rest, log = CallImwriteRoi (roi_file actor_id) roi :: rest).
Proof.
  unfold verify_head_circle_debug, verify_head_circle. intros Hrun.
  eexists. split; [reflexivity |].
  set (roi := crop _ _ _ _ _) in *.
  set (roi_box := (_, _, _, _)) in *.
  destruct (Nat.eqb_spec (size roi) 0) as [Hempty | Hsize].
  { injection Hrun as <- <-. split; [done |]. split; [by left |].
    split; [done |]. intros _ Hne. done. }
  split; [done |].
  destruct debug.
  - (* debug on *)
    unfold bind at 1 2, call at 1, ret at 1 in Hrun.
    destruct (imwrite_roi _ roi) as [written | e].
    + cbn [app] in Hrun. unfold bind at 1, call at 1 in Hrun.
      destruct (GaussianBlur roi) as [roi_blur | e] eqn:Hblur.
      * unfold bind at 1, call at 1 in Hrun.
        destruct (HoughCircles roi_blur) as [[circles |] | e] eqn:Hhough.
        -- pose proof (debug_drawing_quiet actor_id roi
                         (List.filter (head_above x y)
                            (circles_abs (Z.max 0 (x - search_width `div` 2))
                               (Z.max 0 (y - search_height)) circles))
                         (circles_uint16 circles)) as Hquiet.
           unfold bind at 1 in Hrun.
           destruct (let* out := _ in _) as [[[] | e] l1]; cbn [snd] in Hquiet.
           ++ destruct (List.filter _ _) as [| c rest]; injection Hrun as <- <-;
                (split; [| split; [done | by eexists]]);
                right; (split; [done |]); right; exists roi_blur; (split; [done |]);
                detection_of Hquiet.
           ++ injection Hrun as <- <-. split; [| split; [done | by eexists]].
              right. split; [done |]. right. exists roi_blur. split; [done |].
              detection_of Hquiet.
        -- injection Hrun as <- <-. split; [| split; [done | by eexists]].
           right. split; [done |]. right. by exists roi_blur.
        -- injection Hrun as <- <-. split; [| split; [done | by eexists]].
           right. split; [done |]. right. by exists roi_blur.
      * injection Hrun as <- <-. split; [| split; [done | by eexists]].
        right. split; [done |]. by left.
    + injection Hrun as <- <-. split; [by left |]. split; [done | by eexists].
  - (* debug off *)
    unfold bind, call, ret in *.
    destruct (GaussianBlur roi) as [roi_blur | e] eqn:Hblur.
    + destruct (HoughCircles roi_blur) as [[circles |] | e] eqn:Hhough.
      * destruct (List.filter _ _) as [| c rest]; injection Hrun as <- <-;
          (split; [| split; [done | done]]);
          right; (split; [done |]); right; by exists roi_blur.
      * injection Hrun as <- <-. split; [| split; [done | done]].
        right. split; [done |]. right. by exists roi_blur.
      * injection Hrun as <- <-. split; [| split; [done | done]].
        right. split; [done |]. right. by exists roi_blur.
    + injection Hrun as <- <-. split; [| split; [done | done]].
      right. split; [done |]. by left.
Qed.

End HeadDebugFacts.

Example debug_run_log :
  DebugScenario.run true
  = (Ret (true, Some (120, 40, 8), (95, 15, 145, 50)),
     [HeadDebug.CallImwriteRoi "debug_roi_actor2.png" (crop Scenario.sheet 15 50 95 145);
      HeadDebug.CallGaussianBlur (crop Scenario.sheet 15 50 95 145);
      HeadDebug.CallHoughCircles (crop Scenario.sheet 15 50 95 145);
      HeadDebug.CallCvtColor (crop Scenario.sheet 15 50 95 145);
      HeadDebug.CallCircle (25, 25) 8;
      HeadDebug.CallImwriteCircles "debug_roi_actor2_circles.png"
        (crop Scenario.sheet 15 50 95 145)]).
Proof. vm_compute. reflexivity. Qed.

Lemma verify_head_circle_debug_calls_witness :
  ∃ rest : list HeadDebug.head_call,
    (DebugScenario.run true).2
    = HeadDebug.CallImwriteRoi "debug_roi_actor2.png" (crop Scenario.sheet 15 50 95 145)
        :: rest.
Proof.
  destruct (verify_head_circle_debug_calls Scenario.sheet Scenario.blur Scenario.hough
              DebugScenario.imwrite DebugScenario.gray2bgr DebugScenario.draw
              DebugScenario.imwrite true Scenario.sheet 120 50 35 50 (Some 2)
              (DebugScenario.run true).1 (DebugScenario.run true).2)
    as (roi & Hroi & _ & _ & _ & Hdebug).
  - vm_compute. reflexivity.
  - destruct (Hdebug eq_refl) as [rest Hrest].
    + rewrite Hroi. vm_compute. discriminate.
    + exists rest. rewrite Hrest, Hroi. vm_compute. reflexivity.
Defined.
